(** * Weather dashboard: fetch adapters, normalizers, chart and map builders

    A shallow embedding of the core of the dashboard:
    - [api/rainviewer.py]: [get_radar_tile_url], [get_all_radar_frames];
    - [api/open_meteo.py]: [fetch_model_forecast], [fetch_multi_model_comparison];
    - [dashboard.py]: [make_nws_request], [fetch_alerts], [fetch_forecast];
    - [charts/model_comparison.py]: the four chart builders;
    - [maps/weather_maps.py]: [SEVERITY_COLORS], [create_alerts_map].

    The program is dynamically typed Python over decoded JSON, so the
    embedding keeps a universe of Python values, an explicit exception
    result, and state passing for the objects the code mutates (the frame
    list, the figure, the map) and for the outbound HTTP calls. *)

From Stdlib Require Import String Ascii List ZArith Bool Lia DecimalString.
Import ListNotations.
Local Open Scope string_scope.
Local Open Scope Z_scope.
Set Warnings "-register-all,-notation-for-abbreviation".

(** ** Python values *)

Module Py.

(** A Python [float], kept as the decimal literal [mantissa * 10 ^ exponent]
    that denotes it (a literal of the source or a number token of a JSON
    body).  The program only ever tests floats for truth and prints them. *)
Record pyfloat : Set := Dec { mantissa : Z; exponent : Z }.

(** The literal denotes the double [0.0]: it is zero, or so small that the
    nearest double is zero.  The least positive double is [2 ^ -1074], so
    (rounding to nearest, ties to even) exactly the magnitudes up to
    [2 ^ -1075] round to zero: [1e-400] does, [3e-324] does not. *)
Definition decodes_to_zero (f : pyfloat) : bool :=
  (mantissa f =? 0)
  || ((exponent f <? 0)
      && (Z.abs (mantissa f) * 2 ^ 1075 <=? 10 ^ (- exponent f))).

(** The values produced by [response.json()]: [None], booleans, numbers,
    strings, lists and dicts with string keys.  A dict is an association
    list in insertion order (iteration order is observable); keys are
    unique in a decoded body and lookup takes the first binding. *)
Inductive value : Type :=
| VNone
| VBool (b : bool)
| VInt (n : Z)
| VFloat (f : pyfloat)
| VStr (s : string)
| VList (items : list value)
| VDict (entries : list (string * value)).

(** The exception classes this code can raise or names in [except]. *)
Inductive exc : Set :=
| KeyError | IndexError | TypeError | AttributeError | ValueError.

Definition exc_eqb (a b : exc) : bool :=
  match a, b with
  | KeyError, KeyError | IndexError, IndexError | TypeError, TypeError
  | AttributeError, AttributeError | ValueError, ValueError => true
  | _, _ => false
  end.

(** Outcome of evaluating an expression: a value or a raised exception. *)
Inductive result (A : Type) : Type :=
| Return (a : A)
| Raise (e : exc).
Arguments Return {A} a.
Arguments Raise {A} e.

Definition rbind {A B} (r : result A) (k : A -> result B) : result B :=
  match r with
  | Return a => k a
  | Raise e => Raise e
  end.

(** [try: c  except (handled...): h] *)
Definition try_except {A} (c : result A) (handled : list exc) (h : result A)
  : result A :=
  match c with
  | Return a => Return a
  | Raise e => if existsb (exc_eqb e) handled then h else Raise e
  end.

(** Truth value of an object, as tested by [if x], [not x], [x and y]. *)
Definition truthy (v : value) : bool :=
  match v with
  | VNone => false
  | VBool b => b
  | VInt n => negb (n =? 0)
  | VFloat f => negb (decodes_to_zero f)
  | VStr s => negb (String.eqb s "")
  | VList l => match l with [] => false | _ => true end
  | VDict d => match d with [] => false | _ => true end
  end.

Fixpoint dict_find (k : string) (d : list (string * value)) : option value :=
  match d with
  | [] => None
  | (k', v) :: d' => if String.eqb k k' then Some v else dict_find k d'
  end.

(** [o.get(k, dflt)]: only a dict has the method. *)
Definition get_method (o : value) (k : string) (dflt : value) : result value :=
  match o with
  | VDict d => Return (match dict_find k d with Some v => v | None => dflt end)
  | _ => Raise AttributeError
  end.

(** [o[k]] for a string key [k]. *)
Definition getitem_key (o : value) (k : string) : result value :=
  match o with
  | VDict d => match dict_find k d with Some v => Return v | None => Raise KeyError end
  | _ => Raise TypeError
  end.

(** Position denoted by a Python index in a sequence of length [n]:
    negative indices count from the end. *)
Definition norm_index (n : nat) (i : Z) : option nat :=
  let j := if i <? 0 then i + Z.of_nat n else i in
  if (0 <=? j) && (j <? Z.of_nat n) then Some (Z.to_nat j) else None.

(** The characters of a string, each as a one-character string (strings
    are kept as sequences of bytes). *)
Fixpoint chars (s : string) : list value :=
  match s with
  | EmptyString => []
  | String c s' => VStr (String c EmptyString) :: chars s'
  end.

(** [o[i]] for an integer [i]. *)
Definition getitem_index (o : value) (i : Z) : result value :=
  match o with
  | VList l =>
      match norm_index (length l) i with
      | Some j => match nth_error l j with Some v => Return v | None => Raise IndexError end
      | None => Raise IndexError
      end
  | VStr s =>
      match norm_index (length (chars s)) i with
      | Some j => match nth_error (chars s) j with Some v => Return v | None => Raise IndexError end
      | None => Raise IndexError
      end
  | VDict _ => Raise KeyError
  | _ => Raise TypeError
  end.

(** The items visited by [for x in o]. *)
Definition iterate (o : value) : result (list value) :=
  match o with
  | VList l => Return l
  | VDict d => Return (map (fun kv => VStr (fst kv)) d)
  | VStr s => Return (chars s)
  | _ => Raise TypeError
  end.

Definition is_str (k : string) (v : value) : bool :=
  match v with VStr s => String.eqb s k | _ => false end.

(** [k in o] for a string [k]: key of a dict, element of a list, substring
    of a string; other objects are not containers. *)
Definition contains (k : string) (o : value) : result bool :=
  match o with
  | VDict d => Return (match dict_find k d with Some _ => true | None => false end)
  | VList l => Return (existsb (is_str k) l)
  | VStr s => Return (match String.index 0 k s with Some _ => true | None => false end)
  | _ => Raise TypeError
  end.

Definition nl : string := String (ascii_of_nat 10) EmptyString.

(** The value under key [k] of an object, [None] when there is none; used
    to name parts of a payload in statements. *)
Definition field (k : string) (o : value) : value :=
  match o with
  | VDict d => match dict_find k d with Some v => v | None => VNone end
  | _ => VNone
  end.

Definition is_dict (v : value) : bool :=
  match v with VDict _ => true | _ => false end.

(** [str(v)], the text an f-string field [{v}] contributes.  Printing of
    floats (shortest round-trip digits) and of containers (their [repr]) is
    left to [str_other]; no property below depends on it. *)
Definition format_value (str_other : value -> string) (v : value) : string :=
  match v with
  | VStr s => s
  | VNone => "None"
  | VBool true => "True"
  | VBool false => "False"
  | VInt n => NilZero.string_of_int (Z.to_int n)
  | _ => str_other v
  end.

(** *** Statements that mutate an object or perform a call

    [prog S A] runs on a state [S] (the object being built, or the log of
    outbound requests) and yields a value or an exception together with the
    state reached: what was mutated before an exception stays mutated. *)
Definition prog (S A : Type) : Type := S -> result A * S.

Definition pret {S A} (a : A) : prog S A := fun s => (Return a, s).

Definition pbind {S A B} (c : prog S A) (k : A -> prog S B) : prog S B :=
  fun s =>
    match c s with
    | (Return a, s') => k a s'
    | (Raise e, s') => (Raise e, s')
    end.

Definition lift {S A} (r : result A) : prog S A := fun s => (r, s).

Definition ptry {S A} (c : prog S A) (handled : list exc) (h : prog S A)
  : prog S A :=
  fun s =>
    match c s with
    | (Return a, s') => (Return a, s')
    | (Raise e, s') => if existsb (exc_eqb e) handled then h s' else (Raise e, s')
    end.

(** [for x in l: body(x)] *)
Fixpoint for_each {S A} (body : A -> prog S unit) (l : list A) : prog S unit :=
  match l with
  | [] => pret tt
  | x :: l' => pbind (body x) (fun _ => for_each body l')
  end.

End Py.
Export Py.

Declare Scope py_scope.
Delimit Scope py_scope with py.
Notation "'do' x <- c ; k" := (rbind c (fun x => k))
  (at level 60, x name, c at next level, right associativity) : py_scope.
Notation "'run' x <- c ; k" := (pbind c (fun x => k))
  (at level 60, x name, c at next level, right associativity) : py_scope.
Local Open Scope py_scope.

(** ** RainViewer normalizers ([api/rainviewer.py]) *)

Module Rainviewer.
Section Normalizers.

Variable str_other : value -> string.

Definition default_host : string := "https://tilecache.rainviewer.com".

(** [f"{host}{path}/256/{{z}}/{{x}}/{{y}}/2/1_1.png"] *)
Definition tile_url (host path : value) : string :=
  format_value str_other host ++ format_value str_other path
  ++ "/256/{z}/{x}/{y}/2/1_1.png".

Definition get_radar_tile_url (radar_data : value) (frame_index : Z)
  : result value :=
  try_except
    (do radar <- get_method radar_data "radar" (VDict []) ;
     do radar_frames <- get_method radar "past" (VList []) ;
     if negb (truthy radar_frames) then Return VNone
     else
       do frame <- getitem_index radar_frames frame_index ;
       do path <- getitem_key frame "path" ;
       do host <- get_method radar_data "host" (VStr default_host) ;
       Return (VStr (tile_url host path)))
    [KeyError; IndexError]
    (Return VNone).

(** [{"time": time, "url": url}] *)
Definition frame_dict (time : value) (url : string) : value :=
  VDict [("time", time); ("url", VStr url)].

(** One turn of the loop: read the frame, then [frames.append(...)]. *)
Definition append_frame (host frame : value) : prog (list value) unit :=
  run path <- lift (getitem_key frame "path") ;
  run time <- lift (getitem_key frame "time") ;
  fun frames => (Return tt, (frames ++ [frame_dict time (tile_url host path)])%list).

(** [frames] lives outside the [try]: what was appended before an
    exception is still returned. *)
Definition get_all_radar_frames (radar_data : value) : result (list value) :=
  let frames : list value := [] in
  let attempt : prog (list value) unit :=
    run host <- lift (get_method radar_data "host" (VStr default_host)) ;
    run radar <- lift (get_method radar_data "radar" (VDict [])) ;
    run radar_frames <- lift (get_method radar "past" (VList [])) ;
    run items <- lift (iterate radar_frames) ;
    for_each (append_frame host) items in
  match ptry attempt [KeyError; TypeError] (pret tt) frames with
  | (Return _, frames') => Return frames'
  | (Raise e, _) => Raise e
  end.

(** *** Vocabulary of the statements about the normalizers *)

(** [radar_data.get("radar", {}).get("past", [])], the frame list both
    normalizers read. *)
Definition radar_past (radar_data : value) : result value :=
  do radar <- get_method radar_data "radar" (VDict []) ;
  get_method radar "past" (VList []).

(** A well-formed entry of [past]: an object carrying [path] and [time]. *)
Definition frame_ok (frame : value) : bool :=
  match frame with
  | VDict d =>
      match dict_find "path" d, dict_find "time" d with
      | Some _, Some _ => true
      | _, _ => false
      end
  | _ => false
  end.

(** The [{time, url}] pair of one entry under the template rule. *)
Definition radar_frame (host frame : value) : value :=
  VDict [("time", field "time" frame);
         ("url", VStr (format_value str_other host
                       ++ format_value str_other (field "path" frame)
                       ++ "/256/{z}/{x}/{y}/2/1_1.png"))].

(** The entries before the first malformed one. *)
Fixpoint leading_ok (entries : list value) : list value :=
  match entries with
  | [] => []
  | e :: rest => if frame_ok e then e :: leading_ok rest else []
  end.

(** The entries a loop over [past] visits; none when it cannot be iterated. *)
Definition entries_of (past : value) : list value :=
  match iterate past with
  | Return l => l
  | Raise _ => []
  end.

End Normalizers.
End Rainviewer.

(** ** Outbound HTTP

    Every fetcher has the same body:
    [async with httpx.AsyncClient() as client:
       try: response = await client.get(...); response.raise_for_status();
            return response.json()
       except Exception: return None].
    The answer of the outside world to one [client.get] is classified by the
    statement of the [try] block that ends it.  Awaited calls run one after
    the other, so the world is threaded as the log of the calls made; the
    log records every call of [client.get], answered or not. *)

Module Http.

Record request : Type := {
  url : value;
  params : list (string * value);
  headers : list (string * string);
  timeout : pyfloat
}.

Inductive outcome : Type :=
| GetRaised       (* [client.get] raised: transport failure, timeout, bad URL *)
| StatusRaised    (* [raise_for_status] raised: HTTP failure *)
| JsonRaised      (* [response.json] raised: the body is not JSON *)
| Json (body : value).

(** The answer may depend on everything requested before. *)
Definition transport : Type := list request -> request -> outcome.

Definition payload (o : outcome) : value :=
  match o with
  | Json body => body
  | _ => VNone
  end.

Definition get_json (net : transport) (rq : request) : prog (list request) value :=
  fun log => (Return (payload (net log rq)), (log ++ [rq])%list).

Definition thirty_seconds : pyfloat := Dec 300 (-1).

End Http.

(** ** Open-Meteo adapter ([api/open_meteo.py]) *)

Module OpenMeteo.

Definition OPEN_METEO_BASE : string := "https://api.open-meteo.com/v1/forecast".

Definition default_variables : list string :=
  ["temperature_2m"; "relative_humidity_2m"; "precipitation";
   "wind_speed_10m"; "wind_direction_10m"; "weather_code"].

Definition forecast_request (latitude longitude : pyfloat) (model : string)
    (variables : option (list string)) : Http.request :=
  let variables := match variables with Some vs => vs | None => default_variables end in
  {| Http.url := VStr OPEN_METEO_BASE;
     Http.params :=
       [("latitude", VFloat latitude);
        ("longitude", VFloat longitude);
        ("models", VStr model);
        ("hourly", VStr (String.concat "," variables));
        ("timezone", VStr "auto");
        ("forecast_days", VInt 7)];
     Http.headers := [];
     Http.timeout := Http.thirty_seconds |}.

Definition fetch_model_forecast (net : Http.transport)
    (latitude longitude : pyfloat) (model : string)
    (variables : option (list string)) : prog (list Http.request) value :=
  Http.get_json net (forecast_request latitude longitude model variables).

Definition fetch_multi_model_comparison (net : Http.transport)
    (latitude longitude : pyfloat) (variables : option (list string))
  : prog (list Http.request) value :=
  run gfs_data <- fetch_model_forecast net latitude longitude "gfs_seamless" variables ;
  run ecmwf_data <- fetch_model_forecast net latitude longitude "ecmwf_ifs" variables ;
  pret (VDict [("gfs", gfs_data); ("ecmwf", ecmwf_data)]).

End OpenMeteo.

(** ** NWS adapter ([dashboard.py]) *)

Module Nws.
Section Adapter.

Variable str_other : value -> string.

Definition NWS_API_BASE : string := "https://api.weather.gov".
Definition USER_AGENT : string := "weather-app/1.0".

Definition nws_request (url : value) : Http.request :=
  {| Http.url := url;
     Http.params := [];
     Http.headers := [("User-Agent", USER_AGENT); ("Accept", "application/geo+json")];
     Http.timeout := Http.thirty_seconds |}.

Definition make_nws_request (net : Http.transport) (url : value)
  : prog (list Http.request) value :=
  Http.get_json net (nws_request url).

Definition alerts_url (state : string) : string :=
  NWS_API_BASE ++ "/alerts/active/area/" ++ state.

(** [not data or "features" not in data] *)
Definition lacks_features (data : value) : result bool :=
  if negb (truthy data) then Return true
  else do found <- contains "features" data ; Return (negb found).

Definition fetch_alerts (net : Http.transport) (state : string)
  : prog (list Http.request) value :=
  run data <- make_nws_request net (VStr (alerts_url state)) ;
  run absent <- lift (lacks_features data) ;
  if absent then pret VNone
  else lift (getitem_key data "features").

Definition points_url (latitude longitude : pyfloat) : string :=
  NWS_API_BASE ++ "/points/" ++ format_value str_other (VFloat latitude)
  ++ "," ++ format_value str_other (VFloat longitude).

Definition fetch_forecast (net : Http.transport) (latitude longitude : pyfloat)
  : prog (list Http.request) value :=
  run points_data <- make_nws_request net (VStr (points_url latitude longitude)) ;
  if negb (truthy points_data) then pret VNone
  else
    run forecast_url <-
      lift (do properties <- getitem_key points_data "properties" ;
            getitem_key properties "forecast") ;
    run forecast_data <- make_nws_request net forecast_url ;
    if negb (truthy forecast_data) then pret VNone
    else
      lift (do properties <- getitem_key forecast_data "properties" ;
            getitem_key properties "periods").

End Adapter.
End Nws.

(** ** Chart builders ([charts/model_comparison.py])

    A figure is the list of its traces in the order they were added; the
    layout set by [update_layout] carries no data and is left out. *)

Module Charts.

Inductive trace_kind : Set := Scatter | Bar.

Record trace : Type := {
  kind : trace_kind;
  x : value;
  y : value;
  name : string;
  color : string;
  filled : bool;                 (* [fill="tozeroy"] *)
  cell : option (nat * nat)      (* [row], [col] of a subplot *)
}.

Definition figure : Type := list trace.

Definition GFS_COLOR : string := "#1f77b4".
Definition ECMWF_COLOR : string := "#ff7f0e".

Section Builders.

(** Plotly checks the [x] and [y] arguments of a trace constructor and
    raises [ValueError] on what is not array data; the check itself belongs
    to the library and stays a parameter. *)
Variable data_array_ok : value -> bool.

Definition new_trace (k : trace_kind) (xs ys : value) (nm col : string)
    (fl : bool) (c : option (nat * nat)) : result trace :=
  if data_array_ok xs && data_array_ok ys
  then Return {| kind := k; x := xs; y := ys; name := nm; color := col;
                 filled := fl; cell := c |}
  else Raise ValueError.

Definition add_trace (t : trace) : prog figure unit :=
  fun fig => (Return tt, (fig ++ [t])%list).

(** [data and "hourly" in data] *)
Definition has_hourly (data : value) : result bool :=
  if truthy data then contains "hourly" data else Return false.

(** One guarded block of a builder:
    [if data and "hourly" in data:
       fig.add_trace(go.K(x=data["hourly"]["time"], y=data["hourly"][var], ...))] *)
Definition plot_model (data : value) (var : string) (k : trace_kind)
    (nm col : string) (fl : bool) (c : option (nat * nat)) : prog figure unit :=
  run guard <- lift (has_hourly data) ;
  if guard then
    run t <- lift (do hourly <- getitem_key data "hourly" ;
                   do xs <- getitem_key hourly "time" ;
                   do hourly' <- getitem_key data "hourly" ;
                   do ys <- getitem_key hourly' var ;
                   new_trace k xs ys nm col fl c) ;
    add_trace t
  else pret tt.

(** A builder starts from an empty figure and returns it. *)
Definition build (body : prog figure unit) : result figure :=
  match body [] with
  | (Return _, fig) => Return fig
  | (Raise e, _) => Raise e
  end.

Definition create_temperature_comparison_chart (gfs_data ecmwf_data : value)
  : result figure :=
  build (run _u <- plot_model gfs_data "temperature_2m" Scatter "GFS" GFS_COLOR false None ;
         plot_model ecmwf_data "temperature_2m" Scatter "ECMWF" ECMWF_COLOR false None).

Definition create_precipitation_comparison_chart (gfs_data ecmwf_data : value)
  : result figure :=
  build (run _u <- plot_model gfs_data "precipitation" Bar "GFS" GFS_COLOR false None ;
         plot_model ecmwf_data "precipitation" Bar "ECMWF" ECMWF_COLOR false None).

Definition create_wind_comparison_chart (gfs_data ecmwf_data : value)
  : result figure :=
  build (run _u <- plot_model gfs_data "wind_speed_10m" Scatter "GFS" GFS_COLOR true None ;
         plot_model ecmwf_data "wind_speed_10m" Scatter "ECMWF" ECMWF_COLOR true None).

Definition create_multi_variable_dashboard (gfs_data ecmwf_data : value)
  : result figure :=
  build (
    (* Temperature (row 1, col 1) *)
    run _u <- plot_model gfs_data "temperature_2m" Scatter "GFS" GFS_COLOR false (Some (1, 1)%nat) ;
    run _u <- plot_model ecmwf_data "temperature_2m" Scatter "ECMWF" ECMWF_COLOR false (Some (1, 1)%nat) ;
    (* Precipitation (row 1, col 2) *)
    run _u <- plot_model gfs_data "precipitation" Bar "GFS Precip" GFS_COLOR false (Some (1, 2)%nat) ;
    run _u <- plot_model ecmwf_data "precipitation" Bar "ECMWF Precip" ECMWF_COLOR false (Some (1, 2)%nat) ;
    (* Wind Speed (row 2, col 1) *)
    run _u <- plot_model gfs_data "wind_speed_10m" Scatter "GFS Wind" GFS_COLOR false (Some (2, 1)%nat) ;
    run _u <- plot_model ecmwf_data "wind_speed_10m" Scatter "ECMWF Wind" ECMWF_COLOR false (Some (2, 1)%nat) ;
    (* Humidity (row 2, col 2) *)
    run _u <- plot_model gfs_data "relative_humidity_2m" Scatter "GFS Humidity" GFS_COLOR false (Some (2, 2)%nat) ;
    plot_model ecmwf_data "relative_humidity_2m" Scatter "ECMWF Humidity" ECMWF_COLOR false (Some (2, 2)%nat)).

(** The four builders, each with the variables it plots. *)
Definition chart_builders : list ((value -> value -> result figure) * list string) :=
  [(create_temperature_comparison_chart, ["temperature_2m"]);
   (create_precipitation_comparison_chart, ["precipitation"]);
   (create_wind_comparison_chart, ["wind_speed_10m"]);
   (create_multi_variable_dashboard,
    ["temperature_2m"; "precipitation"; "wind_speed_10m"; "relative_humidity_2m"])].

End Builders.

(** *** Vocabulary of the statements about the builders *)

(** The response is present and [data["hourly"][var]] exists, with value [ys]. *)
Definition provides (data : value) (var : string) (ys : value) : Prop :=
  data <> VNone
  /\ exists hourly,
       getitem_key data "hourly" = Return hourly
       /\ getitem_key hourly var = Return ys.

(** A trace is attributed to a model by the colour the builders draw that
    model in.  A trace drawn for a model must plot one of the builder's
    variables of that model's response against its [time]. *)
Definition sourced (gfs ecmwf : value) (vars : list string) (t : trace) : Prop :=
  (color t = GFS_COLOR \/ color t = ECMWF_COLOR)
  /\ (color t = GFS_COLOR ->
      exists var, In var vars /\ provides gfs "time" (x t) /\ provides gfs var (y t))
  /\ (color t = ECMWF_COLOR ->
      exists var, In var vars /\ provides ecmwf "time" (x t) /\ provides ecmwf var (y t)).

(** The contract of a builder over its variables. *)
Definition guarded (builder : value -> value -> result figure) (vars : list string)
  : Prop :=
  forall gfs ecmwf fig,
    builder gfs ecmwf = Return fig -> Forall (sourced gfs ecmwf vars) fig.

(** A well-shaped forecast response: an object whose [hourly] object holds
    the [time] sequence and a sequence for each variable of [vars]. *)
Definition complete (data : value) (vars : list string) : Prop :=
  exists d h,
    data = VDict d
    /\ dict_find "hourly" d = Some (VDict h)
    /\ (exists xs, dict_find "time" h = Some (VList xs))
    /\ forall var, In var vars -> exists ys, dict_find var h = Some (VList ys).

(** An absent response adds no trace and raises nothing: with both absent
    the figure is empty, and with one absent every trace of a returned
    figure belongs to the other model. *)
Definition absent_is_silent (builder : value -> value -> result figure) : Prop :=
  builder VNone VNone = Return []
  /\ (forall ecmwf fig, builder VNone ecmwf = Return fig ->
                        Forall (fun t => color t = ECMWF_COLOR) fig)
  /\ (forall gfs fig, builder gfs VNone = Return fig ->
                      Forall (fun t => color t = GFS_COLOR) fig).

End Charts.

(** ** Alert map builder ([maps/weather_maps.py])

    A map is the list of the elements added to it, in order. *)

Module Maps.

(** A six-decimal literal of degrees, given in millionths. *)
Definition deg6 (millionths : Z) : pyfloat := Dec millionths (-6).

Definition STATE_CENTERS : list (string * (pyfloat * pyfloat)) :=
  [
    ("AL", (deg6 32806671, deg6 (-86791130)));
    ("AK", (deg6 61370716, deg6 (-152404419)));
    ("AZ", (deg6 33729759, deg6 (-111431221)));
    ("AR", (deg6 34969704, deg6 (-92373123)));
    ("CA", (deg6 36116203, deg6 (-119681564)));
    ("CO", (deg6 39059811, deg6 (-105311104)));
    ("CT", (deg6 41597782, deg6 (-72755371)));
    ("DE", (deg6 39318523, deg6 (-75507141)));
    ("FL", (deg6 27766279, deg6 (-81686783)));
    ("GA", (deg6 33040619, deg6 (-83643074)));
    ("HI", (deg6 21094318, deg6 (-157498337)));
    ("ID", (deg6 44240459, deg6 (-114478828)));
    ("IL", (deg6 40349457, deg6 (-88986137)));
    ("IN", (deg6 39849426, deg6 (-86258278)));
    ("IA", (deg6 42011539, deg6 (-93210526)));
    ("KS", (deg6 38526600, deg6 (-96726486)));
    ("KY", (deg6 37668140, deg6 (-84670067)));
    ("LA", (deg6 31169546, deg6 (-91867805)));
    ("ME", (deg6 44693947, deg6 (-69381927)));
    ("MD", (deg6 39063946, deg6 (-76802101)));
    ("MA", (deg6 42230171, deg6 (-71530106)));
    ("MI", (deg6 43326618, deg6 (-84536095)));
    ("MN", (deg6 45694454, deg6 (-93900192)));
    ("MS", (deg6 32741646, deg6 (-89678696)));
    ("MO", (deg6 38456085, deg6 (-92288368)));
    ("MT", (deg6 46921925, deg6 (-110454353)));
    ("NE", (deg6 41125370, deg6 (-98268082)));
    ("NV", (deg6 38313515, deg6 (-117055374)));
    ("NH", (deg6 43452492, deg6 (-71563896)));
    ("NJ", (deg6 40298904, deg6 (-74521011)));
    ("NM", (deg6 34840515, deg6 (-106248482)));
    ("NY", (deg6 42165726, deg6 (-74948051)));
    ("NC", (deg6 35630066, deg6 (-79806419)));
    ("ND", (deg6 47528912, deg6 (-99784012)));
    ("OH", (deg6 40388783, deg6 (-82764915)));
    ("OK", (deg6 35565342, deg6 (-96928917)));
    ("OR", (deg6 44572021, deg6 (-122070938)));
    ("PA", (deg6 40590752, deg6 (-77209755)));
    ("RI", (deg6 41680893, deg6 (-71511780)));
    ("SC", (deg6 33856892, deg6 (-80945007)));
    ("SD", (deg6 44299782, deg6 (-99438828)));
    ("TN", (deg6 35747845, deg6 (-86692345)));
    ("TX", (deg6 31054487, deg6 (-97563461)));
    ("UT", (deg6 40150032, deg6 (-111862434)));
    ("VT", (deg6 44045876, deg6 (-72710686)));
    ("VA", (deg6 37769337, deg6 (-78169968)));
    ("WA", (deg6 47400902, deg6 (-121490494)));
    ("WV", (deg6 38491226, deg6 (-80954453)));
    ("WI", (deg6 44268543, deg6 (-89616508)));
    ("WY", (deg6 42755966, deg6 (-107302490)))
  ].

Definition default_center : pyfloat * pyfloat := (Dec 398283 (-4), Dec (-985795) (-4)).

Definition SEVERITY_COLORS : list (string * string) :=
  [("Extreme", "#FF0000");
   ("Severe", "#FF6600");
   ("Moderate", "#FFCC00");
   ("Minor", "#00FF00");
   ("Unknown", "#808080")].

Fixpoint table_find {A} (k : string) (t : list (string * A)) : option A :=
  match t with
  | [] => None
  | (k', a) :: t' => if String.eqb k k' then Some a else table_find k t'
  end.

(** [SEVERITY_COLORS.get(severity, "#808080")]: the key is hashed first, so
    a list or a dict raises; any other key that is not one of the five
    strings gets the default. *)
Definition severity_color (severity : value) : result string :=
  match severity with
  | VStr s => Return (match table_find s SEVERITY_COLORS with
                      | Some c => c
                      | None => "#808080"
                      end)
  | VList _ | VDict _ => Raise TypeError
  | _ => Return "#808080"
  end.

Inductive element : Type :=
| GeoJson (geometry : value) (fill_color line_color : string) (popup : string)
| Marker (location : pyfloat * pyfloat) (popup : string)
         (icon_color icon prefix : string).

Record folium_map : Type := {
  location : pyfloat * pyfloat;
  zoom_start : Z;
  tiles : string;
  children : list element
}.

Section Builder.

Variable str_other : value -> string.

Definition popup_html (event severity area : value) : string :=
  nl ++ "        <b>" ++ format_value str_other event ++ "</b><br>"
  ++ nl ++ "        <b>Severity:</b> " ++ format_value str_other severity ++ "<br>"
  ++ nl ++ "        <b>Area:</b> " ++ format_value str_other area
  ++ nl ++ "        ".

(** [geometry and geometry.get("type") in ["Polygon", "MultiPolygon"]] *)
Definition is_polygonal (geometry : value) : result bool :=
  if truthy geometry then
    do ty <- get_method geometry "type" VNone ;
    Return (is_str "Polygon" ty || is_str "MultiPolygon" ty)
  else Return false.

Definition add_to (e : element) : prog (list element) unit :=
  fun m => (Return tt, (m ++ [e])%list).

(** The body of [for alert in alerts]. *)
Definition add_alert (center : pyfloat * pyfloat) (alert : value)
  : prog (list element) unit :=
  run props <- lift (get_method alert "properties" (VDict [])) ;
  run geometry <- lift (get_method alert "geometry" VNone) ;
  run severity <- lift (get_method props "severity" (VStr "Unknown")) ;
  run color <- lift (severity_color severity) ;
  run event <- lift (get_method props "event" (VStr "Unknown Event")) ;
  run area <- lift (get_method props "areaDesc" (VStr "Unknown Area")) ;
  let popup := popup_html event severity area in
  run polygonal <- lift (is_polygonal geometry) ;
  if polygonal then add_to (GeoJson geometry color color popup)
  else add_to (Marker center popup "red" "exclamation-triangle" "fa").

Definition create_alerts_map (alerts : value) (state_code : string)
  : result folium_map :=
  let center := match table_find state_code STATE_CENTERS with
                | Some c => c
                | None => default_center
                end in
  let body := run items <- lift (iterate alerts) ; for_each (add_alert center) items in
  match body [] with
  | (Return _, m) => Return {| location := center; zoom_start := 6;
                               tiles := "CartoDB positron"; children := m |}
  | (Raise e, _) => Raise e
  end.

End Builder.

(** *** Vocabulary of the statements about the alert map *)

(** [alert.get("properties", {})] and the severity read from it. *)
Definition properties_of (alert : value) : value :=
  match alert with
  | VDict a => match dict_find "properties" a with Some p => p | None => VDict [] end
  | _ => VDict []
  end.

Definition severity_of (alert : value) : value :=
  match properties_of alert with
  | VDict p => match dict_find "severity" p with Some s => s | None => VStr "Unknown" end
  | _ => VStr "Unknown"
  end.

(** An alert feature as the data model has it: an object whose
    [properties], when present, is an object with a scalar [severity], and
    whose [geometry] is absent (or empty) or an object. *)
Definition alert_ok (alert : value) : bool :=
  is_dict alert
  && is_dict (properties_of alert)
  && match severity_of alert with VList _ | VDict _ => false | _ => true end
  && (negb (truthy (field "geometry" alert)) || is_dict (field "geometry" alert)).

(** The geometry type is [Polygon] or [MultiPolygon]. *)
Definition polygonal (alert : value) : bool :=
  is_str "Polygon" (field "type" (field "geometry" alert))
  || is_str "MultiPolygon" (field "type" (field "geometry" alert)).

(** The element an alert is drawn as: a shape filled and outlined in the
    palette colour of its severity, or the fallback pin at the map centre. *)
Definition drawn_as (center : pyfloat * pyfloat) (alert : value) (e : element) : Prop :=
  if polygonal alert then
    exists c popup,
      e = GeoJson (field "geometry" alert) c c popup
      /\ severity_color (severity_of alert) = Return c
      /\ In c (map snd SEVERITY_COLORS)
  else
    exists popup, e = Marker center popup "red" "exclamation-triangle" "fa".

End Maps.

(** ** RainViewer fetch adapter ([api/rainviewer.py]) *)

Module RadarFetch.

Definition RAINVIEWER_API : string := "https://api.rainviewer.com/public/weather-maps.json".

Definition radar_request : Http.request :=
  {| Http.url := VStr RAINVIEWER_API;
     Http.params := [];
     Http.headers := [];
     Http.timeout := Http.thirty_seconds |}.

Definition fetch_radar_timestamps (net : Http.transport) : prog (list Http.request) value :=
  Http.get_json net radar_request.

End RadarFetch.

(** ** Remaining map builders ([maps/weather_maps.py])

    These maps also carry a tile layer and a layer control, so their
    children are [layer]s; markers are the [Maps.Marker]s of the alert map. *)

Module MapsMore.
Import Maps.

Inductive layer : Type :=
| Child (e : element)
| TileLayer (tile_url attr layer_name : string) (overlay control : bool) (opacity : pyfloat)
| LayerControl.

Record map_spec : Type := {
  center : pyfloat * pyfloat;
  zoom : Z;
  base_tiles : string;
  layers : list layer
}.

(** [len(o)] *)
Definition py_len (o : value) : result Z :=
  match o with
  | VList l => Return (Z.of_nat (length l))
  | VDict d => Return (Z.of_nat (length d))
  | VStr s => Return (Z.of_nat (String.length s))
  | _ => Raise TypeError
  end.

(** Truth of an optional string argument: [None] and [""] are false. *)
Definition nonempty_url (u : option string) : bool :=
  match u with
  | Some s => negb (String.eqb s "")
  | None => false
  end.

Section Builders.

Variable str_other : value -> string.

(** [f"{x:.4f}"], fixed-point printing of a float with four decimals. *)
Variable fixed4 : pyfloat -> string.

(** [forecast_data and len(forecast_data) > 0] *)
Definition has_periods (forecast_data : value) : result bool :=
  if truthy forecast_data then
    do n <- py_len forecast_data ; Return (0 <? n)
  else Return false.

Definition create_forecast_map (latitude longitude : pyfloat) (forecast_data : value)
  : result map_spec :=
  let popup_html :=
    "<b>Forecast Location</b><br>Lat: " ++ fixed4 latitude
    ++ "<br>Lon: " ++ fixed4 longitude in
  do shown <- has_periods forecast_data ;
  do popup_html <-
    (if shown then
       do first_period <- getitem_index forecast_data 0 ;
       do name <- get_method first_period "name" (VStr "Current") ;
       do temperature <- get_method first_period "temperature" (VStr "N/A") ;
       do unit <- get_method first_period "temperatureUnit" (VStr "F") ;
       do short <- get_method first_period "shortForecast" (VStr "") ;
       Return (popup_html ++ "<br><br>"
               ++ nl ++ "        <b>" ++ format_value str_other name ++ ":</b><br>"
               ++ nl ++ "        " ++ format_value str_other temperature ++ "&deg;"
               ++ format_value str_other unit ++ "<br>"
               ++ nl ++ "        " ++ format_value str_other short
               ++ nl ++ "        ")
     else Return popup_html) ;
  Return {| center := (latitude, longitude);
            zoom := 10;
            base_tiles := "CartoDB positron";
            layers := [Child (Marker (latitude, longitude) popup_html "blue" "cloud" "fa")] |}.

(** [folium.Map(tiles=...)] takes the name of a built-in tile set; any
    other string, given as here without an attribution, makes it raise
    [ValueError].  Which names are built in belongs to the library (the two
    names the other builders pass are). *)
Variable known_tiles : string -> bool.

Definition create_location_picker_map (center_lat center_lon : pyfloat) (zoom_level : Z)
    (selected_lat selected_lon : option pyfloat) (tiles : string) : result map_spec :=
  if known_tiles tiles then
    let m := [] in
    let m :=
      match selected_lat, selected_lon with
      | Some lat, Some lon =>
          (m ++ [Child (Marker (lat, lon)
                               ("Selected: " ++ fixed4 lat ++ ", " ++ fixed4 lon)
                               "red" "crosshairs" "fa")])%list
      | _, _ => m
      end in
    Return {| center := (center_lat, center_lon); zoom := zoom_level;
              base_tiles := tiles; layers := m |}
  else Raise ValueError.

Definition create_radar_map (center_lat center_lon : pyfloat) (zoom_level : Z)
    (radar_tile_url : option string) (selected_lat selected_lon : option pyfloat)
  : map_spec :=
  let m := [] in
  let m :=
    if nonempty_url radar_tile_url then
      (m ++ [TileLayer (match radar_tile_url with Some u => u | None => "" end)
                       "RainViewer" "Radar" true true (Dec 7 (-1))])%list
    else m in
  let m :=
    match selected_lat, selected_lon with
    | Some lat, Some lon =>
        (m ++ [Child (Marker (lat, lon)
                             ("Selected: " ++ fixed4 lat ++ ", " ++ fixed4 lon)
                             "red" "crosshairs" "fa")])%list
    | _, _ => m
    end in
  let m := (m ++ [LayerControl])%list in
  {| center := (center_lat, center_lon); zoom := zoom_level;
     base_tiles := "CartoDB dark_matter"; layers := m |}.

End Builders.

(** *** Vocabulary of the statements about these builders *)

Definition is_tile_layer (l : layer) : bool :=
  match l with TileLayer _ _ _ _ _ _ => true | _ => false end.

Definition is_marker (l : layer) : bool :=
  match l with Child (Marker _ _ _ _ _) => true | _ => false end.

End MapsMore.

(** ** How [dashboard.py] uses the results of the core *)

Module Dashboard.

Definition US_STATES : list (string * string) :=
  [
    ("AL", "Alabama");
    ("AK", "Alaska");
    ("AZ", "Arizona");
    ("AR", "Arkansas");
    ("CA", "California");
    ("CO", "Colorado");
    ("CT", "Connecticut");
    ("DE", "Delaware");
    ("FL", "Florida");
    ("GA", "Georgia");
    ("HI", "Hawaii");
    ("ID", "Idaho");
    ("IL", "Illinois");
    ("IN", "Indiana");
    ("IA", "Iowa");
    ("KS", "Kansas");
    ("KY", "Kentucky");
    ("LA", "Louisiana");
    ("ME", "Maine");
    ("MD", "Maryland");
    ("MA", "Massachusetts");
    ("MI", "Michigan");
    ("MN", "Minnesota");
    ("MS", "Mississippi");
    ("MO", "Missouri");
    ("MT", "Montana");
    ("NE", "Nebraska");
    ("NV", "Nevada");
    ("NH", "New Hampshire");
    ("NJ", "New Jersey");
    ("NM", "New Mexico");
    ("NY", "New York");
    ("NC", "North Carolina");
    ("ND", "North Dakota");
    ("OH", "Ohio");
    ("OK", "Oklahoma");
    ("OR", "Oregon");
    ("PA", "Pennsylvania");
    ("RI", "Rhode Island");
    ("SC", "South Carolina");
    ("SD", "South Dakota");
    ("TN", "Tennessee");
    ("TX", "Texas");
    ("UT", "Utah");
    ("VT", "Vermont");
    ("VA", "Virginia");
    ("WA", "Washington");
    ("WV", "West Virginia");
    ("WI", "Wisconsin");
    ("WY", "Wyoming")
  ].

(** The radar tab: [selected_frame = frames[frame_idx]], then
    [selected_frame["time"]] and [selected_frame["url"]]. *)
Definition selected_frame (frames : list value) (frame_idx : Z) : result (value * value) :=
  do frame <- getitem_index (VList frames) frame_idx ;
  do time <- getitem_key frame "time" ;
  do url <- getitem_key frame "url" ;
  Return (time, url).

(** The model tab: [model_data.get("gfs")], [model_data.get("ecmwf")]. *)
Definition model_entries (model_data : value) : result (value * value) :=
  do gfs_data <- get_method model_data "gfs" VNone ;
  do ecmwf_data <- get_method model_data "ecmwf" VNone ;
  Return (gfs_data, ecmwf_data).

End Dashboard.

(** ** Sample data used to exercise the statements *)

Module Samples.

Definition new_york : pyfloat * pyfloat := (Dec 407128 (-4), Dec (-74006) (-3)).

(** Printing of floats and containers for the samples: the two sample
    coordinates, as Python prints them, are all that is ever printed. *)
Definition sample_text (v : value) : string :=
  match v with
  | VFloat (Dec m e) =>
      if (m =? 407128) && (e =? -4) then "40.7128"
      else if (m =? -74006) && (e =? -3) then "-74.006"
      else ""
  | _ => ""
  end.

Definition frame1 : value :=
  VDict [("time", VInt 1700000000); ("path", VStr "/v2/radar/1700000000")].
Definition frame2 : value :=
  VDict [("time", VInt 1700000600); ("path", VStr "/v2/radar/1700000600")].

(** [{"host": ..., "radar": {"past": [frame1, frame2]}}] *)
Definition radar_payload : value :=
  VDict [("host", VStr "https://tiles.example");
         ("radar", VDict [("past", VList [frame1; frame2])])].

(** The same frames without the top-level [host]. *)
Definition radar_payload_no_host : value :=
  VDict [("radar", VDict [("past", VList [frame1; frame2])])].

(** A payload whose second entry lacks [path]. *)
Definition radar_payload_broken_entry : value :=
  VDict [("radar", VDict [("past", VList [frame1; VDict [("time", VInt 1700000600)]])])].

(** [{"radar": null}] *)
Definition radar_payload_null_radar : value := VDict [("radar", VNone)].

(** A transport that gives the scripted answers in turn, then fails. *)
Definition scripted (answers : list Http.outcome) : Http.transport :=
  fun log _ => nth (length log) answers Http.GetRaised.

(** A transport that answers by the [models] parameter of the request. *)
Definition by_model (gfs ecmwf : Http.outcome) : Http.transport :=
  fun _ rq =>
    match dict_find "models" (Http.params rq) with
    | Some m => if is_str "gfs_seamless" m then gfs
                else if is_str "ecmwf_ifs" m then ecmwf
                else Http.GetRaised
    | None => Http.GetRaised
    end.

Definition hourly_payload : value :=
  VDict [("hourly",
          VDict [("time", VList [VStr "2024-01-01T00:00"; VStr "2024-01-01T01:00"]);
                 ("temperature_2m", VList [VInt 3; VInt 4]);
                 ("relative_humidity_2m", VList [VInt 80; VInt 82]);
                 ("precipitation", VList [VInt 0; VInt 1]);
                 ("wind_speed_10m", VList [VInt 12; VInt 9])])].

Definition alert (severity : string) (geometry : value) : value :=
  VDict [("properties",
          VDict [("event", VStr "Flood Warning");
                 ("severity", VStr severity);
                 ("areaDesc", VStr "Kern County")]);
         ("geometry", geometry)].

Definition polygon : value :=
  VDict [("type", VStr "Polygon"); ("coordinates", VList [])].

(** [{"features": [extreme, minor]}] *)
Definition alerts_payload : value :=
  VDict [("type", VStr "FeatureCollection");
         ("features", VList [alert "Extreme" polygon; alert "Minor" VNone])].

(** What Plotly takes as array data among decoded JSON values. *)
Definition array_like (v : value) : bool :=
  match v with
  | VList _ | VNone => true
  | _ => false
  end.

Definition forecast_url : string := "https://api.weather.gov/gridpoints/OKX/33,35/forecast".

Definition points_payload : value :=
  VDict [("properties", VDict [("forecast", VStr forecast_url)])].

Definition periods : value :=
  VList [VDict [("name", VStr "Tonight"); ("temperature", VInt 41)]].

Definition forecast_payload : value :=
  VDict [("properties", VDict [("periods", periods)])].

(** Bodies with a 2xx status that lack an expected key. *)
Definition points_without_forecast : value := VDict [("properties", VDict [])].
Definition points_without_properties : value := VDict [("id", VStr "point")].
Definition forecast_without_periods : value :=
  VDict [("properties", VDict [("updated", VStr "2024-01-01")])].

End Samples.

(** ** Further vocabulary and sample data *)

Module Terms.

(** The payload is an object whose [radar], when present, is an object:
    the chained [.get("radar", {}).get("past", [])] can be evaluated. *)
Definition radar_is_object (radar_data : value) : bool :=
  match radar_data with
  | VDict d => match dict_find "radar" d with Some r => is_dict r | None => true end
  | _ => false
  end.

Definition tile_suffix : string := "/256/{z}/{x}/{y}/2/1_1.png".

(** Bodies on which [fetch_alerts] raises: truthy values that are no
    container, and lists or strings in which ["features"] is found although
    they cannot be subscripted by it. *)
Definition alerts_body_rejected (data : value) : bool :=
  truthy data
  && match data with
     | VBool _ | VInt _ | VFloat _ => true
     | VList l => existsb (is_str "features") l
     | VStr s => match String.index 0 "features" s with Some _ => true | None => false end
     | _ => false
     end.

(** The shape every NWS request has: the two headers, the 30 s timeout
    and no query parameters. *)
Definition nws_shaped (rq : Http.request) : Prop :=
  Http.headers rq = [("User-Agent", "weather-app/1.0"); ("Accept", "application/geo+json")]
  /\ Http.timeout rq = Dec 300 (-1)
  /\ Http.params rq = [].

Definition series_of (t : Charts.trace) : value * value := (Charts.x t, Charts.y t).

Definition in_cell (r c : nat) (t : Charts.trace) : bool :=
  match Charts.cell t with
  | Some (a, b) => Nat.eqb a r && Nat.eqb b c
  | None => false
  end.

Section Plotted.

Variable data_array_ok : value -> bool.

(** What one guarded block of a builder does with a response: skip it
    ([None]), plot the pair of series, or raise. *)
Definition plotted (data : value) (var : string) : result (option (value * value)) :=
  do guard <- Charts.has_hourly data ;
  if guard then
    do hourly <- getitem_key data "hourly" ;
    do xs <- getitem_key hourly "time" ;
    do hourly' <- getitem_key data "hourly" ;
    do ys <- getitem_key hourly' var ;
    if data_array_ok xs && data_array_ok ys then Return (Some (xs, ys))
    else Raise ValueError
  else Return None.

End Plotted.

End Terms.

Module MoreSamples.
Import Samples.

(** An entry with [path] but without [time], between two good entries. *)
Definition frame_without_time : value := VDict [("path", VStr "/v2/radar/1700000300")].

Definition radar_payload_untimed_entry : value :=
  VDict [("radar", VDict [("past", VList [frame1; frame_without_time; frame2])])].

(** Fixed-point printing for the sample coordinates. *)
Definition sample_fixed4 (f : pyfloat) : string :=
  if (mantissa f =? 407128) && (exponent f =? -4) then "40.7128"
  else if (mantissa f =? -74006) && (exponent f =? -3) then "-74.0060"
  else "".

(** Tile names taken as built in by the samples. *)
Definition sample_known_tiles (name : string) : bool :=
  String.eqb name "CartoDB positron" || String.eqb name "CartoDB dark_matter"
  || String.eqb name "OpenStreetMap".

(** An Open-Meteo error body: an object without [hourly]. *)
Definition error_body : value :=
  VDict [("error", VBool true); ("reason", VStr "Cannot initialize WeatherVariable")].

(** A response whose [hourly] lacks [temperature_2m]. *)
Definition hourly_without_temperature : value :=
  VDict [("hourly", VDict [("time", VList [VStr "2024-01-01T00:00"]);
                           ("precipitation", VList [VInt 0])])].

End MoreSamples.

(** * Properties *)

(** ** Python layer *)

Module PyFacts.

Lemma try_except_never_handled {A} (c : result A) (handled : list exc) (a : A) (e : exc) :
  In e handled -> try_except c handled (Return a) <> Raise e.
Proof.
  intros Hin. unfold try_except.
  destruct c as [v | e']; [discriminate |].
  destruct (existsb (exc_eqb e') handled) eqn:Hex; [discriminate |].
  intros Heq. injection Heq as ->.
  assert (existsb (exc_eqb e) handled = true) as Habs.
  { apply existsb_exists. exists e. split; [assumption | now destruct e]. }
  congruence.
Qed.

Lemma norm_index_in_range (n : nat) (i : Z) :
  - Z.of_nat n <= i < Z.of_nat n ->
  norm_index n i = Some (Z.to_nat (i mod Z.of_nat n)).
Proof.
  intros Hi. unfold norm_index.
  destruct (Z.ltb_spec i 0) as [Hneg | Hpos].
  - replace ((0 <=? i + Z.of_nat n) && (i + Z.of_nat n <? Z.of_nat n)) with true
      by (symmetry; apply andb_true_intro; split; [apply Z.leb_le | apply Z.ltb_lt]; lia).
    f_equal. f_equal.
    rewrite <- (Z.mod_small (i + Z.of_nat n) (Z.of_nat n)) by lia.
    rewrite <- (Z.mod_add i 1 (Z.of_nat n)) by lia. f_equal. lia.
  - replace ((0 <=? i) && (i <? Z.of_nat n)) with true
      by (symmetry; apply andb_true_intro; split; [apply Z.leb_le | apply Z.ltb_lt]; lia).
    rewrite Z.mod_small by lia. reflexivity.
Qed.

Lemma norm_index_out_of_range (n : nat) (i : Z) :
  i < - Z.of_nat n \/ Z.of_nat n <= i -> norm_index n i = None.
Proof.
  intros Hi. unfold norm_index.
  destruct (Z.ltb_spec i 0) as [Hneg | Hpos].
  - destruct (Z.leb_spec 0 (i + Z.of_nat n)); [| reflexivity].
    destruct (Z.ltb_spec (i + Z.of_nat n) (Z.of_nat n)); [lia | reflexivity].
  - destruct (Z.leb_spec 0 i); [| reflexivity].
    destruct (Z.ltb_spec i (Z.of_nat n)); [lia | reflexivity].
Qed.

Lemma norm_index_bound (n : nat) (i : Z) (j : nat) :
  norm_index n i = Some j -> (j < n)%nat.
Proof.
  unfold norm_index.
  destruct (Z.ltb_spec i 0);
    match goal with |- context [(0 <=? ?a) && (?a <? ?b)] =>
      destruct (Z.leb_spec 0 a); destruct (Z.ltb_spec a b); simpl; try discriminate
    end; intros [= <-]; lia.
Qed.

(** Number tokens too small for a double decode to [0.0] and are falsy;
    the least subnormal and its neighbours are not. *)
Example tiny_floats_are_falsy :
  truthy (VFloat (Dec 1 (-400))) = false
  /\ truthy (VFloat (Dec 2 (-324))) = false
  /\ truthy (VFloat (Dec 3 (-324))) = true
  /\ truthy (VFloat (Dec 5 (-324))) = true
  /\ truthy (VFloat (Dec 0 0)) = false
  /\ truthy (VFloat (Dec 1 999)) = true.
Proof. vm_compute. repeat split. Qed.

End PyFacts.

(** ** RainViewer normalizers *)

Module RainviewerFacts.
Import Rainviewer.
Section Facts.

Variable str_other : value -> string.

Local Notation tile_url := (tile_url str_other).
Local Notation radar_frame := (radar_frame str_other).
Local Notation get_radar_tile_url := (get_radar_tile_url str_other).
Local Notation get_all_radar_frames := (get_all_radar_frames str_other).
Local Notation append_frame := (append_frame str_other).

Lemma frame_ok_fields (f : value) :
  frame_ok f = true ->
  getitem_key f "path" = Return (field "path" f)
  /\ getitem_key f "time" = Return (field "time" f).
Proof.
  destruct f as [| | | | | |d]; simpl; try discriminate.
  destruct (dict_find "path" d), (dict_find "time" d); try discriminate.
  intros _. split; reflexivity.
Qed.

Lemma append_frame_ok (host f : value) (acc : list value) :
  frame_ok f = true ->
  append_frame host f acc = (Return tt, (acc ++ [radar_frame host f])%list).
Proof.
  intros Hok. destruct (frame_ok_fields f Hok) as [Hp Ht].
  unfold Rainviewer.append_frame, pbind, lift. rewrite Hp, Ht. reflexivity.
Qed.

Lemma append_frame_bad (host f : value) (acc : list value) :
  frame_ok f = false ->
  exists e, append_frame host f acc = (Raise e, acc) /\ (e = KeyError \/ e = TypeError).
Proof.
  unfold Rainviewer.append_frame, pbind, lift.
  destruct f as [| | | | | |d]; simpl; intros Hbad;
    try (exists TypeError; split; [reflexivity | now right]).
  destruct (dict_find "path" d);
    [| exists KeyError; split; [reflexivity | now left]].
  destruct (dict_find "time" d); [discriminate |].
  exists KeyError; split; [reflexivity | now left].
Qed.

(** The loop appends the frames of the leading well-formed entries and
    stops, with a [KeyError] or [TypeError], at the first malformed one. *)
Lemma loop_leading (host : value) (items acc : list value) :
  exists r,
    for_each (append_frame host) items acc
    = (r, (acc ++ map (radar_frame host) (leading_ok items))%list)
    /\ (r = Return tt \/ r = Raise KeyError \/ r = Raise TypeError).
Proof.
  revert acc. induction items as [| f items IH]; intros acc; simpl.
  - exists (Return tt). rewrite app_nil_r. split; [reflexivity | now left].
  - destruct (frame_ok f) eqn:Hok.
    + unfold pbind at 1. rewrite (append_frame_ok host f acc Hok).
      destruct (IH (acc ++ [radar_frame host f])%list) as [r [Hr Hcase]].
      exists r. rewrite Hr. simpl. rewrite <- app_assoc. split; [reflexivity | assumption].
    + destruct (append_frame_bad host f acc Hok) as [e [He Hcase]].
      unfold pbind at 1. rewrite He. exists (Raise e). simpl. rewrite app_nil_r.
      split; [reflexivity |]. destruct Hcase as [-> | ->]; auto.
Qed.

Lemma leading_ok_all (l : list value) :
  forallb frame_ok l = true -> leading_ok l = l.
Proof.
  induction l as [| f l IH]; simpl; [reflexivity |].
  intros H. apply andb_prop in H as [Hf Hl]. rewrite Hf, IH by assumption. reflexivity.
Qed.

Lemma get_all_radar_frames_shape (rd host past : value) :
  get_method rd "host" (VStr default_host) = Return host ->
  radar_past rd = Return past ->
  get_all_radar_frames rd
  = Return (map (radar_frame host) (leading_ok (entries_of past))).
Proof.
  intros Hhost Hpast.
  unfold Rainviewer.get_all_radar_frames, ptry.
  unfold radar_past in Hpast.
  unfold pbind at 1. unfold lift at 1. rewrite Hhost.
  unfold pbind at 1. unfold lift at 1.
  destruct (get_method rd "radar" (VDict [])) as [radar |]; [| discriminate].
  simpl in Hpast.
  unfold pbind at 1. unfold lift at 1. rewrite Hpast.
  unfold pbind at 1. unfold lift at 1. unfold entries_of.
  destruct (iterate past) as [items | e] eqn:Hit.
  - destruct (loop_leading host items []) as [r [Hr Hcase]]. rewrite Hr.
    destruct Hcase as [-> | [-> | ->]]; reflexivity.
  - assert (e = TypeError) as ->
      by (destruct past; simpl in Hit; congruence).
    reflexivity.
Qed.

(** With a valid index the single-frame lookup builds the URL of that
    entry; only the entry's [path] is read. *)
Lemma get_radar_tile_url_at (rd host : value) (l : list value) (i : Z) (f path : value) :
  get_method rd "host" (VStr default_host) = Return host ->
  radar_past rd = Return (VList l) ->
  - Z.of_nat (length l) <= i < Z.of_nat (length l) ->
  nth_error l (Z.to_nat (i mod Z.of_nat (length l))) = Some f ->
  getitem_key f "path" = Return path ->
  get_radar_tile_url rd i = Return (VStr (tile_url host path)).
Proof.
  intros Hhost Hpast Hi Hnth Hpath.
  unfold Rainviewer.get_radar_tile_url. unfold radar_past in Hpast.
  destruct (get_method rd "radar" (VDict [])) as [radar |]; [| discriminate].
  simpl in Hpast. unfold rbind at 1. unfold rbind at 1. rewrite Hpast.
  assert (truthy (VList l) = true) as ->
    by (destruct l; [simpl in Hi; lia | reflexivity]).
  simpl negb. cbv iota. unfold getitem_index.
  rewrite (PyFacts.norm_index_in_range _ _ Hi), Hnth.
  unfold rbind at 1. unfold rbind at 1. rewrite Hpath, Hhost. reflexivity.
Qed.

Lemma nth_error_last {A} (l : list A) (d : A) :
  l <> [] -> nth_error l (length l - 1) = Some (last l d).
Proof.
  induction l as [| a l IH]; [congruence |]. intros _.
  destruct l as [| b l]; [reflexivity |].
  replace (length (a :: b :: l) - 1)%nat with (S (length (b :: l) - 1))
    by (simpl; lia).
  change (last (a :: b :: l) d) with (last (b :: l) d).
  simpl nth_error. apply IH. discriminate.
Qed.

Lemma nth_error_minus_one {A} (l : list A) (d : A) :
  l <> [] ->
  nth_error l (Z.to_nat (-1 mod Z.of_nat (length l))) = Some (last l d).
Proof.
  intros Hne. rewrite <- (nth_error_last l d Hne). f_equal.
  assert (0 < Z.of_nat (length l)) as Hpos by (destruct l; [congruence | simpl; lia]).
  replace (-1 mod Z.of_nat (length l)) with (Z.of_nat (length l) - 1).
  - lia.
  - symmetry. rewrite <- (Z.mod_add _ 1) by lia.
    rewrite Z.mod_small by lia. lia.
Qed.

Lemma last_map_nonempty {A B} (g : A -> B) (l : list A) (a : A) (b : B) :
  l <> [] -> last (map g l) b = g (last l a).
Proof.
  induction l as [| x l IH]; [congruence |]. intros _.
  destruct l as [| y l]; [reflexivity |].
  change (last (map g (x :: y :: l)) b) with (last (map g (y :: l)) b).
  change (last (x :: y :: l) a) with (last (y :: l) a).
  apply IH. discriminate.
Qed.

(** Beside C1: a [radar] value that is not an object makes the chained
    [.get] raise [AttributeError], which the handler does not name. *)
Lemma get_all_radar_frames_radar_not_object (d : list (string * value)) (radar : value) :
  dict_find "radar" d = Some radar ->
  is_dict radar = false ->
  get_all_radar_frames (VDict d) = Raise AttributeError.
Proof.
  intros Hfind Hnot. unfold Rainviewer.get_all_radar_frames, ptry, pbind, lift. simpl.
  rewrite Hfind. destruct radar; try reflexivity; discriminate.
Qed.

(** C1 (as amended).  For a payload that is an object whose [radar] value,
    when present, is an object, [get_all_radar_frames] returns a sequence
    and never raises: the [{time, url}] pairs built by the template rule
    from the entries of [radar.past], in upstream order, up to the first
    entry that is not an object carrying both [path] and [time].  Hence
    every entry is mapped when all are well formed, and the sequence is
    empty when [past] is missing, empty or cannot be iterated. *)
Theorem get_all_radar_frames_leading_entries (rd host past : value) :
  get_method rd "host" (VStr default_host) = Return host ->
  radar_past rd = Return past ->
  get_all_radar_frames rd
  = Return (map (radar_frame host) (leading_ok (entries_of past)))
  /\ (forall l, past = VList l -> forallb frame_ok l = true ->
      get_all_radar_frames rd = Return (map (radar_frame host) l))
  /\ (entries_of past = [] -> get_all_radar_frames rd = Return []).
Proof.
  intros Hhost Hpast.
  pose proof (get_all_radar_frames_shape rd host past Hhost Hpast) as Hshape.
  split; [assumption | split].
  - intros l -> Hall. rewrite Hshape. simpl entries_of.
    rewrite leading_ok_all by assumption. reflexivity.
  - intros Hnone. rewrite Hshape, Hnone. reflexivity.
Qed.

(** C4.  [get_radar_tile_url] returns [None], without raising, when the
    frame list is empty or the index is out of its range; so does
    [get_radar_tile_url({}, 0)]; no [KeyError] or [IndexError] ever leaves
    the function; and every failing index or key lookup inside it is
    turned into [None]: whenever [radar_frames[frame_index]] raises
    [KeyError] or [IndexError], or [frame["path"]] raises [KeyError], the
    result is [None].  In particular an in-range entry that is an object
    without [path], and a [past] that is an object instead of a list,
    give [None]. *)
Theorem get_radar_tile_url_absent :
  (forall (rd : value) (i : Z) (l : list value),
      radar_past rd = Return (VList l) ->
      l = [] \/ i < - Z.of_nat (length l) \/ Z.of_nat (length l) <= i ->
      get_radar_tile_url rd i = Return VNone)
  /\ get_radar_tile_url (VDict []) 0 = Return VNone
  /\ (forall (rd : value) (i : Z),
        get_radar_tile_url rd i <> Raise KeyError
        /\ get_radar_tile_url rd i <> Raise IndexError)
  /\ (forall (rd : value) (i : Z) (past : value),
        radar_past rd = Return past ->
        getitem_index past i = Raise KeyError
        \/ getitem_index past i = Raise IndexError
        \/ (exists frame, getitem_index past i = Return frame
                          /\ getitem_key frame "path" = Raise KeyError) ->
        get_radar_tile_url rd i = Return VNone)
  /\ (forall (rd : value) (i : Z) (l : list value) (entry : list (string * value)),
        radar_past rd = Return (VList l) ->
        - Z.of_nat (length l) <= i < Z.of_nat (length l) ->
        nth_error l (Z.to_nat (i mod Z.of_nat (length l))) = Some (VDict entry) ->
        dict_find "path" entry = None ->
        get_radar_tile_url rd i = Return VNone)
  /\ (forall (rd : value) (i : Z) (d : list (string * value)),
        radar_past rd = Return (VDict d) ->
        get_radar_tile_url rd i = Return VNone).
Proof.
  assert (forall (rd : value) (i : Z) (past : value),
             radar_past rd = Return past ->
             getitem_index past i = Raise KeyError
             \/ getitem_index past i = Raise IndexError
             \/ (exists frame, getitem_index past i = Return frame
                               /\ getitem_key frame "path" = Raise KeyError) ->
             get_radar_tile_url rd i = Return VNone) as Hconverted.
  { intros rd i past Hpast Hlookup.
    unfold Rainviewer.get_radar_tile_url. unfold radar_past in Hpast.
    destruct (get_method rd "radar" (VDict [])) as [radar |]; [| discriminate].
    simpl in Hpast. cbn [rbind]. rewrite Hpast. cbn [rbind].
    destruct (truthy past); cbn [negb]; [| reflexivity].
    destruct Hlookup as [-> | [-> | [frame [-> Hpath]]]]; cbn [rbind];
      [reflexivity | reflexivity |].
    rewrite Hpath. reflexivity. }
  split; [| split; [| split; [| split; [| split]]]].
  - intros rd i l Hpast Hout.
    unfold Rainviewer.get_radar_tile_url. unfold radar_past in Hpast.
    destruct (get_method rd "radar" (VDict [])) as [radar |]; [| discriminate].
    simpl in Hpast. unfold rbind at 1. unfold rbind at 1. rewrite Hpast.
    destruct l as [| f l]; [reflexivity |].
    destruct Hout as [Habs | Hout]; [discriminate |].
    simpl truthy. simpl negb. cbv iota. unfold getitem_index.
    rewrite (PyFacts.norm_index_out_of_range _ _ Hout). reflexivity.
  - reflexivity.
  - intros rd i. split; apply PyFacts.try_except_never_handled; simpl; auto.
  - exact Hconverted.
  - intros rd i l entry Hpast Hrange Hnth Hmissing.
    apply (Hconverted rd i (VList l) Hpast). right. right.
    exists (VDict entry). split.
    + unfold getitem_index. rewrite (PyFacts.norm_index_in_range _ _ Hrange), Hnth.
      reflexivity.
    + simpl. rewrite Hmissing. reflexivity.
  - intros rd i d Hpast. apply (Hconverted rd i (VDict d) Hpast). left. reflexivity.
Qed.

(** C6.  On a payload whose [radar.past] is a non-empty list of well-formed
    entries, [get_radar_tile_url(payload, -1)] is the string
    [{host}{path}/256/{z}/{x}/{y}/2/1_1.png] built from the last entry, the
    placeholders kept literally, and it is the [url] of the last frame of
    [get_all_radar_frames(payload)]. *)
Theorem get_radar_tile_url_last_frame (rd host : value) (l : list value) :
  get_method rd "host" (VStr default_host) = Return host ->
  radar_past rd = Return (VList l) ->
  l <> [] ->
  forallb frame_ok l = true ->
  let url := VStr (format_value str_other host
                   ++ format_value str_other (field "path" (last l VNone))
                   ++ "/256/{z}/{x}/{y}/2/1_1.png") in
  get_radar_tile_url rd (-1) = Return url
  /\ exists frames,
       get_all_radar_frames rd = Return frames
       /\ length frames = length l
       /\ getitem_key (last frames VNone) "url" = Return url.
Proof.
  intros Hhost Hpast Hne Hall url.
  assert (frame_ok (last l VNone) = true) as Hlast.
  { rewrite forallb_forall in Hall. apply Hall.
    destruct (exists_last Hne) as [l' [a ->]]. rewrite last_last.
    apply in_or_app. right. now left. }
  split.
  - apply (get_radar_tile_url_at rd host l (-1) (last l VNone)); try assumption.
    + destruct l; [congruence | simpl length; lia].
    + apply nth_error_minus_one. assumption.
    + apply (frame_ok_fields _ Hlast).
  - exists (map (radar_frame host) l). split; [| split].
    + rewrite (get_all_radar_frames_shape rd host (VList l) Hhost Hpast).
      simpl entries_of. rewrite leading_ok_all by assumption. reflexivity.
    + apply length_map.
    + rewrite (last_map_nonempty (radar_frame host) l VNone VNone Hne). reflexivity.
Qed.

(** C10.  Both normalizers read the host as [radar_data.get("host", default)]
    with the same default: for every valid index the URL returned by
    [get_radar_tile_url] is the [url] of the frame at that position in
    [get_all_radar_frames], and when the payload has no top-level [host]
    both start with [https://tilecache.rainviewer.com]. *)
Theorem normalizers_share_host (rd host : value) (l : list value) (i : Z) :
  get_method rd "host" (VStr default_host) = Return host ->
  radar_past rd = Return (VList l) ->
  forallb frame_ok l = true ->
  - Z.of_nat (length l) <= i < Z.of_nat (length l) ->
  (forall d, rd = VDict d -> dict_find "host" d = None ->
             host = VStr "https://tilecache.rainviewer.com")
  /\ exists f frames fr,
       let j := Z.to_nat (i mod Z.of_nat (length l)) in
       let url := VStr (format_value str_other host
                        ++ format_value str_other (field "path" f)
                        ++ "/256/{z}/{x}/{y}/2/1_1.png") in
       nth_error l j = Some f
       /\ get_radar_tile_url rd i = Return url
       /\ get_all_radar_frames rd = Return frames
       /\ nth_error frames j = Some fr
       /\ getitem_key fr "url" = Return url.
Proof.
  intros Hhost Hpast Hall Hi. split.
  - intros d -> Hnone. simpl in Hhost. rewrite Hnone in Hhost.
    injection Hhost as <-. reflexivity.
  - set (j := Z.to_nat (i mod Z.of_nat (length l))).
    assert (j < length l)%nat as Hj.
    { apply (PyFacts.norm_index_bound _ i). apply PyFacts.norm_index_in_range. exact Hi. }
    destruct (nth_error l j) as [f |] eqn:Hnth;
      [| apply nth_error_None in Hnth; lia].
    assert (frame_ok f = true) as Hf.
    { rewrite forallb_forall in Hall. apply Hall. eapply nth_error_In. exact Hnth. }
    exists f, (map (radar_frame host) l), (radar_frame host f). cbv zeta.
    fold j. repeat split.
    + exact Hnth.
    + apply (get_radar_tile_url_at rd host l i f); try assumption.
      apply (frame_ok_fields _ Hf).
    + rewrite (get_all_radar_frames_shape rd host (VList l) Hhost Hpast).
      simpl entries_of. rewrite leading_ok_all by assumption. reflexivity.
    + apply map_nth_error. exact Hnth.
Qed.

End Facts.

Import Samples.

Lemma get_all_radar_frames_leading_entries_witness :
  get_method radar_payload "host" (VStr default_host) = Return (VStr "https://tiles.example")
  /\ radar_past radar_payload = Return (VList [frame1; frame2])
  /\ Rainviewer.get_all_radar_frames sample_text radar_payload
     = Return
         [VDict [("time", VInt 1700000000);
                 ("url", VStr "https://tiles.example/v2/radar/1700000000/256/{z}/{x}/{y}/2/1_1.png")];
          VDict [("time", VInt 1700000600);
                 ("url", VStr "https://tiles.example/v2/radar/1700000600/256/{z}/{x}/{y}/2/1_1.png")]].
Proof.
  split; [reflexivity | split; [reflexivity |]].
  exact (proj1 (get_all_radar_frames_leading_entries sample_text radar_payload
                  (VStr "https://tiles.example") (VList [frame1; frame2])
                  eq_refl eq_refl)).
Defined.

(** C1 as stated fails: the second entry of the payload lacks [path], a
    structural anomaly, yet the result is not the empty sequence (and not
    every entry was mapped): the frame appended before the anomaly is
    returned. *)
Lemma get_all_radar_frames_anomaly_not_empty :
  existsb (fun e => negb (frame_ok e))
          (entries_of (field "past" (field "radar" radar_payload_broken_entry))) = true
  /\ Rainviewer.get_all_radar_frames sample_text radar_payload_broken_entry
     = Return
         [VDict [("time", VInt 1700000000);
                 ("url", VStr "https://tilecache.rainviewer.com/v2/radar/1700000000/256/{z}/{x}/{y}/2/1_1.png")]]
  /\ Rainviewer.get_all_radar_frames sample_text radar_payload_broken_entry
     <> Return [].
Proof.
  split; [reflexivity | split; [reflexivity | discriminate]].
Qed.

Example get_all_radar_frames_null_radar :
  Rainviewer.get_all_radar_frames sample_text radar_payload_null_radar
  = Raise AttributeError.
Proof. reflexivity. Qed.

Lemma get_radar_tile_url_absent_witness :
  radar_past radar_payload = Return (VList [frame1; frame2])
  /\ Rainviewer.get_radar_tile_url sample_text radar_payload 2 = Return VNone
  /\ Rainviewer.get_radar_tile_url sample_text radar_payload (-3) = Return VNone
  /\ Rainviewer.get_radar_tile_url sample_text radar_payload_broken_entry 1 = Return VNone
  /\ Rainviewer.get_radar_tile_url sample_text
       (VDict [("radar", VDict [("past", VDict [("0", frame1)])])]) 0 = Return VNone.
Proof.
  split; [reflexivity | split; [| split; [| split]]].
  - apply (proj1 (get_radar_tile_url_absent sample_text) radar_payload 2 [frame1; frame2]).
    + reflexivity.
    + right. right. simpl. lia.
  - apply (proj1 (get_radar_tile_url_absent sample_text) radar_payload (-3) [frame1; frame2]).
    + reflexivity.
    + right. left. simpl. lia.
  - apply (proj1 (proj2 (proj2 (proj2 (proj2 (get_radar_tile_url_absent sample_text)))))
             radar_payload_broken_entry 1
             [frame1; VDict [("time", VInt 1700000600)]]
             [("time", VInt 1700000600)]).
    + reflexivity.
    + simpl. lia.
    + reflexivity.
    + reflexivity.
  - apply (proj2 (proj2 (proj2 (proj2 (proj2 (get_radar_tile_url_absent sample_text)))))
             (VDict [("radar", VDict [("past", VDict [("0", frame1)])])]) 0
             [("0", frame1)]).
    reflexivity.
Defined.

Lemma get_radar_tile_url_last_frame_witness :
  Rainviewer.get_radar_tile_url sample_text radar_payload (-1)
  = Return (VStr "https://tiles.example/v2/radar/1700000600/256/{z}/{x}/{y}/2/1_1.png").
Proof.
  apply (get_radar_tile_url_last_frame sample_text radar_payload
           (VStr "https://tiles.example") [frame1; frame2]).
  - reflexivity.
  - reflexivity.
  - discriminate.
  - reflexivity.
Defined.

Lemma normalizers_share_host_witness :
  exists f frames fr,
    nth_error [frame1; frame2] 1 = Some f
    /\ Rainviewer.get_radar_tile_url sample_text radar_payload_no_host (-1)
       = Return (VStr "https://tilecache.rainviewer.com/v2/radar/1700000600/256/{z}/{x}/{y}/2/1_1.png")
    /\ Rainviewer.get_all_radar_frames sample_text radar_payload_no_host = Return frames
    /\ nth_error frames 1 = Some fr
    /\ getitem_key fr "url"
       = Return (VStr "https://tilecache.rainviewer.com/v2/radar/1700000600/256/{z}/{x}/{y}/2/1_1.png").
Proof.
  assert (- Z.of_nat (length [frame1; frame2]) <= -1 < Z.of_nat (length [frame1; frame2]))
    as Hrange by (simpl; lia).
  destruct (proj2 (normalizers_share_host sample_text radar_payload_no_host
                     (VStr default_host) [frame1; frame2] (-1)
                     eq_refl eq_refl eq_refl Hrange))
    as [f [frames [fr [H1 [H2 [H3 [H4 H5]]]]]]].
  exists f, frames, fr.
  assert (f = frame2) as Hf by (simpl in H1; congruence).
  subst f. repeat split; assumption.
Defined.

End RainviewerFacts.

(** ** Open-Meteo adapter *)

Module OpenMeteoFacts.
Import OpenMeteo.

(** The entry of a returned mapping under key [k]. *)
Lemma fetch_model_forecast_run (net : Http.transport) (lat lon : pyfloat)
    (model : string) (vars : option (list string)) (log : list Http.request) :
  fetch_model_forecast net lat lon model vars log
  = (Return (Http.payload (net log (forecast_request lat lon model vars))),
     (log ++ [forecast_request lat lon model vars])%list).
Proof. reflexivity. Qed.

(** C7.  [fetch_multi_model_comparison] returns a mapping with exactly the
    keys [gfs] and [ecmwf], bound to the results of the two calls of
    [fetch_model_forecast], GFS first; the value under one key is decided by
    the answer to that model's request alone, so a transport that differs
    on (for instance fails) the other model's request leaves it unchanged. *)
Theorem fetch_multi_model_comparison_independent
    (net : Http.transport) (lat lon : pyfloat) (vars : option (list string))
    (log : list Http.request) :
  let gfs_rq := forecast_request lat lon "gfs_seamless" vars in
  let ecmwf_rq := forecast_request lat lon "ecmwf_ifs" vars in
  exists gfs ecmwf,
    fetch_model_forecast net lat lon "gfs_seamless" vars log
      = (Return gfs, (log ++ [gfs_rq])%list)
    /\ fetch_model_forecast net lat lon "ecmwf_ifs" vars (log ++ [gfs_rq])%list
      = (Return ecmwf, ((log ++ [gfs_rq]) ++ [ecmwf_rq])%list)
    /\ fetch_multi_model_comparison net lat lon vars log
      = (Return (VDict [("gfs", gfs); ("ecmwf", ecmwf)]),
         ((log ++ [gfs_rq]) ++ [ecmwf_rq])%list)
    /\ (forall net' : Http.transport,
          net' (log ++ [gfs_rq])%list ecmwf_rq = net (log ++ [gfs_rq])%list ecmwf_rq ->
          exists gfs',
            fetch_multi_model_comparison net' lat lon vars log
            = (Return (VDict [("gfs", gfs'); ("ecmwf", ecmwf)]),
               ((log ++ [gfs_rq]) ++ [ecmwf_rq])%list))
    /\ (forall net' : Http.transport,
          net' log gfs_rq = net log gfs_rq ->
          exists ecmwf',
            fetch_multi_model_comparison net' lat lon vars log
            = (Return (VDict [("gfs", gfs); ("ecmwf", ecmwf')]),
               ((log ++ [gfs_rq]) ++ [ecmwf_rq])%list)).
Proof.
  intros gfs_rq ecmwf_rq.
  exists (Http.payload (net log gfs_rq)),
         (Http.payload (net (log ++ [gfs_rq])%list ecmwf_rq)).
  split; [reflexivity | split; [reflexivity | split; [reflexivity | split]]].
  - intros net' Hsame. exists (Http.payload (net' log gfs_rq)).
    unfold fetch_multi_model_comparison, pbind, pret.
    rewrite !fetch_model_forecast_run. fold gfs_rq ecmwf_rq. rewrite Hsame. reflexivity.
  - intros net' Hsame. exists (Http.payload (net' (log ++ [gfs_rq])%list ecmwf_rq)).
    unfold fetch_multi_model_comparison, pbind, pret.
    rewrite !fetch_model_forecast_run. fold gfs_rq ecmwf_rq. rewrite Hsame. reflexivity.
Qed.

Import Samples.

Lemma fetch_multi_model_comparison_independent_witness :
  exists gfs',
    fetch_multi_model_comparison (by_model Http.GetRaised (Http.Json hourly_payload))
      (fst new_york) (snd new_york) None []
    = (Return (VDict [("gfs", gfs'); ("ecmwf", hourly_payload)]),
       [forecast_request (fst new_york) (snd new_york) "gfs_seamless" None;
        forecast_request (fst new_york) (snd new_york) "ecmwf_ifs" None]).
Proof.
  destruct (fetch_multi_model_comparison_independent
              (by_model (Http.Json hourly_payload) (Http.Json hourly_payload))
              (fst new_york) (snd new_york) None [])
    as [gfs [ecmwf [Hg [He [_ [Hindep _]]]]]].
  destruct (Hindep (by_model Http.GetRaised (Http.Json hourly_payload)) eq_refl)
    as [gfs' Hrun].
  exists gfs'. rewrite Hrun. injection He as <-. reflexivity.
Defined.

End OpenMeteoFacts.

(** ** NWS adapter *)

Module NwsFacts.
Import Nws.

Lemma unreachable_is_absent (o : Http.outcome) :
  o = Http.GetRaised \/ o = Http.StatusRaised \/ o = Http.JsonRaised ->
  Http.payload o = VNone.
Proof. intros [-> | [-> | ->]]; reflexivity. Qed.

Lemma make_nws_request_run (net : Http.transport) (u : value) (log : list Http.request) :
  make_nws_request net u log
  = (Return (Http.payload (net log (nws_request u))), (log ++ [nws_request u])%list).
Proof. reflexivity. Qed.

(** C8.  [fetch_alerts] makes one GET to [/alerts/active/area/{state}].
    With the response typed as [make_nws_request] declares it ([None] or a
    JSON object, whose [features], when present, is a sequence), the result
    is [None] exactly when the request was unreachable (the response is
    [None]) or the object has no [features]; otherwise it is the value of
    [features] itself, unchanged. *)
Theorem fetch_alerts_absent_iff (net : Http.transport) (state : string)
    (log : list Http.request) :
  let rq := nws_request (VStr (NWS_API_BASE ++ "/alerts/active/area/" ++ state)) in
  let data := Http.payload (net log rq) in
  (data = VNone
   \/ exists d, data = VDict d
               /\ forall v, dict_find "features" d = Some v -> exists items, v = VList items) ->
  exists r,
    fetch_alerts net state log = (Return r, (log ++ [rq])%list)
    /\ (r = VNone <->
        data = VNone \/ exists d, data = VDict d /\ dict_find "features" d = None)
    /\ (net log rq = Http.GetRaised \/ net log rq = Http.StatusRaised
        \/ net log rq = Http.JsonRaised -> r = VNone)
    /\ (forall d v, data = VDict d -> dict_find "features" d = Some v -> r = v).
Proof.
  intros rq data Htyped.
  unfold fetch_alerts, pbind. rewrite make_nws_request_run.
  fold (alerts_url state). unfold alerts_url. fold rq. fold data.
  assert (net log rq = Http.GetRaised \/ net log rq = Http.StatusRaised
          \/ net log rq = Http.JsonRaised -> data = VNone) as Hfail
    by (intros H; apply unreachable_is_absent; exact H).
  destruct Htyped as [Hnone | [d [Hd Hseq]]].
  - rewrite Hnone. exists VNone. split; [reflexivity |].
    split; [split; auto |]. split; [reflexivity |]. intros d v H. discriminate.
  - rewrite Hd. destruct d as [| kv d'].
    + exists VNone. split; [reflexivity |].
      split; [split; [intros _; right; exists []; auto | reflexivity] |].
      split; [reflexivity |]. intros d v [= <-]. discriminate.
    + unfold lift, lacks_features.
      change (truthy (VDict (kv :: d'))) with true. simpl negb. cbv iota.
      unfold contains, rbind.
      destruct (dict_find "features" (kv :: d')) as [v |] eqn:Hfind.
      * simpl negb. cbv iota. unfold getitem_key. rewrite Hfind.
        exists v. split; [reflexivity |].
        destruct (Hseq v eq_refl) as [items ->].
        split; [split |].
        -- discriminate.
        -- intros [Habs | [d2 [Hd2 Habs]]]; [congruence |].
           try rewrite Hd in Hd2. injection Hd2 as <-. congruence.
        -- split.
           ++ intros Hout. specialize (Hfail Hout). congruence.
           ++ intros d2 v2 Hd2. try rewrite Hd in Hd2. injection Hd2 as <-. congruence.
      * simpl negb. cbv iota. exists VNone. split; [reflexivity |].
        split; [split; [intros _; right; exists (kv :: d'); auto | reflexivity] |].
        split; [reflexivity |].
        intros d2 v2 Hd2. try rewrite Hd in Hd2. injection Hd2 as <-. congruence.
Qed.

Section Forecast.

Variable str_other : value -> string.

(** C5.  [fetch_forecast] first requests the points URL.  If that request
    fails (or yields any falsy body) the result is [None] and the points
    request is the only one made; a second request is made only after a
    truthy points response. *)
Theorem fetch_forecast_short_circuit (net : Http.transport) (lat lon : pyfloat)
    (log : list Http.request) :
  let prq := nws_request (VStr (points_url str_other lat lon)) in
  (net log prq = Http.GetRaised \/ net log prq = Http.StatusRaised
   \/ net log prq = Http.JsonRaised \/ truthy (Http.payload (net log prq)) = false ->
   fetch_forecast str_other net lat lon log = (Return VNone, (log ++ [prq])%list))
  /\ (forall r log',
        fetch_forecast str_other net lat lon log = (r, log') ->
        log' = (log ++ [prq])%list
        \/ (truthy (Http.payload (net log prq)) = true
            /\ exists u, log' = ((log ++ [prq]) ++ [nws_request u])%list)).
Proof.
  intros prq. split.
  - intros Hfail.
    assert (truthy (Http.payload (net log prq)) = false) as Hfalsy.
    { destruct Hfail as [H | [H | [H | H]]]; try exact H; rewrite H; reflexivity. }
    unfold Nws.fetch_forecast, pbind. rewrite make_nws_request_run. fold prq.
    rewrite Hfalsy. reflexivity.
  - intros r log'.
    unfold Nws.fetch_forecast, pbind at 1. rewrite make_nws_request_run. fold prq.
    destruct (truthy (Http.payload (net log prq))) eqn:Htruthy;
      cbv beta iota delta [negb].
    + unfold pbind at 1. unfold lift at 1.
      destruct (rbind (getitem_key (Http.payload (net log prq)) "properties") _)
        as [u | e].
      * intros Hrun. right. split; [reflexivity |]. exists u.
        unfold pbind in Hrun. rewrite make_nws_request_run in Hrun.
        destruct (truthy _) in Hrun; unfold pret, lift in Hrun; congruence.
      * intros [= _ <-]. now left.
    + intros [= _ <-]. now left.
Qed.

(** Beside C2: a truthy points object without [properties] raises. *)
Lemma fetch_forecast_points_without_properties (net : Http.transport)
    (lat lon : pyfloat) (log : list Http.request) (d : list (string * value)) :
  let prq := nws_request (VStr (points_url str_other lat lon)) in
  Http.payload (net log prq) = VDict d ->
  d <> [] ->
  dict_find "properties" d = None ->
  fetch_forecast str_other net lat lon log = (Raise KeyError, (log ++ [prq])%list).
Proof.
  intros prq Hbody Hne Hmissing.
  unfold Nws.fetch_forecast, pbind at 1. rewrite make_nws_request_run. fold prq.
  rewrite Hbody. destruct d as [| kv d']; [congruence |].
  cbn [truthy negb]. unfold pbind, lift, getitem_key, rbind. rewrite Hmissing.
  reflexivity.
Qed.

End Forecast.

Import Samples.

Lemma fetch_alerts_absent_iff_witness :
  fetch_alerts (scripted [Http.Json alerts_payload]) "CA" []
  = (Return (VList [alert "Extreme" polygon; alert "Minor" VNone]),
     [nws_request (VStr "https://api.weather.gov/alerts/active/area/CA")]).
Proof.
  assert (let data := Http.payload (scripted [Http.Json alerts_payload] []
                         (nws_request (VStr (NWS_API_BASE ++ "/alerts/active/area/" ++ "CA")))) in
          data = VNone
          \/ exists d, data = VDict d
               /\ forall v, dict_find "features" d = Some v -> exists items, v = VList items)
    as Htyped.
  { right. eexists. split; [reflexivity |]. intros v [= <-]. eexists. reflexivity. }
  destruct (fetch_alerts_absent_iff (scripted [Http.Json alerts_payload]) "CA" [] Htyped)
    as [r [Hrun [_ [_ Hvalue]]]].
  rewrite Hrun. rewrite (Hvalue _ _ eq_refl eq_refl). reflexivity.
Defined.

Lemma fetch_forecast_short_circuit_witness :
  fetch_forecast sample_text (scripted [Http.StatusRaised; Http.Json forecast_payload])
    (fst new_york) (snd new_york) []
  = (Return VNone,
     [nws_request (VStr "https://api.weather.gov/points/40.7128,-74.006")]).
Proof.
  apply (proj1 (fetch_forecast_short_circuit sample_text
                  (scripted [Http.StatusRaised; Http.Json forecast_payload])
                  (fst new_york) (snd new_york) [])).
  right. left. reflexivity.
Defined.

(** A well-formed two-hop exchange returns the periods. *)
Example fetch_forecast_two_hops :
  fetch_forecast sample_text
    (scripted [Http.Json points_payload; Http.Json forecast_payload])
    (fst new_york) (snd new_york) []
  = (Return periods,
     [nws_request (VStr "https://api.weather.gov/points/40.7128,-74.006");
      nws_request (VStr forecast_url)]).
Proof. reflexivity. Qed.

(** C2, at the failing inputs.  A 2xx response whose body lacks
    [properties], [forecast] or [periods] makes [fetch_forecast] raise
    [KeyError] instead of returning [None]: the subscripts are outside any
    [try], and only falsy bodies are guarded. *)
Theorem fetch_forecast_missing_key_raises :
  fetch_forecast sample_text (scripted [Http.Json points_without_properties])
    (fst new_york) (snd new_york) []
  = (Raise KeyError,
     [nws_request (VStr "https://api.weather.gov/points/40.7128,-74.006")])
  /\ fetch_forecast sample_text (scripted [Http.Json points_without_forecast])
       (fst new_york) (snd new_york) []
     = (Raise KeyError,
        [nws_request (VStr "https://api.weather.gov/points/40.7128,-74.006")])
  /\ fetch_forecast sample_text
       (scripted [Http.Json points_payload; Http.Json forecast_without_periods])
       (fst new_york) (snd new_york) []
     = (Raise KeyError,
        [nws_request (VStr "https://api.weather.gov/points/40.7128,-74.006");
         nws_request (VStr forecast_url)]).
Proof. repeat split; reflexivity. Qed.

End NwsFacts.

(** ** Chart builders *)

Module ChartsFacts.
Import Charts.

Lemma pbind_return {S A B} (c : prog S A) (k : A -> prog S B) (s s' : S) (b : B) :
  pbind c k s = (Return b, s') ->
  exists a s1, c s = (Return a, s1) /\ k a s1 = (Return b, s').
Proof.
  unfold pbind. destruct (c s) as [[a | e] s1]; [| discriminate].
  intros H. exists a, s1. split; [reflexivity | exact H].
Qed.

Lemma build_return (body : prog figure unit) (fig : figure) :
  build body = Return fig -> body [] = (Return tt, fig).
Proof.
  unfold build. destruct (body []) as [[[] | e] fig']; [| discriminate].
  intros [= ->]. reflexivity.
Qed.

Lemma colors_differ : GFS_COLOR <> ECMWF_COLOR.
Proof. discriminate. Qed.

Section Facts.

Variable data_array_ok : value -> bool.
Hypothesis lists_are_array_data : forall l, data_array_ok (VList l) = true.

Local Notation plot_model := (plot_model data_array_ok).

(** A guarded block either leaves the figure alone or appends one trace
    read from [data["hourly"]]. *)
Lemma plot_model_return (data : value) (var nm col : string) (k : trace_kind)
    (fl : bool) (c : option (nat * nat)) (fig fig' : figure) :
  plot_model data var k nm col fl c fig = (Return tt, fig') ->
  fig' = fig
  \/ exists xs ys,
       provides data "time" xs /\ provides data var ys
       /\ fig' = (fig ++ [{| kind := k; x := xs; y := ys; name := nm; color := col;
                             filled := fl; cell := c |}])%list.
Proof.
  unfold Charts.plot_model. intros Hrun.
  apply pbind_return in Hrun as [guard [s1 [Hguard Hrest]]].
  unfold lift in Hguard. injection Hguard as Hguard <-.
  destruct guard.
  - apply pbind_return in Hrest as [t [s2 [Ht Hadd]]].
    unfold lift in Ht. injection Ht as Ht <-.
    unfold add_trace in Hadd. injection Hadd as <-.
    right.
    assert (data <> VNone) as Hpresent
      by (intros ->; unfold has_hourly in Hguard; simpl in Hguard; discriminate).
    destruct (getitem_key data "hourly") as [hourly |] eqn:Hh; [| discriminate].
    unfold rbind at 1 in Ht.
    destruct (getitem_key hourly "time") as [xs |] eqn:Hx; [| discriminate].
    unfold rbind at 1 2 in Ht.
    destruct (getitem_key hourly var) as [ys |] eqn:Hy; [| discriminate].
    unfold rbind, new_trace in Ht.
    destruct (data_array_ok xs && data_array_ok ys); [| discriminate].
    injection Ht as <-. exists xs, ys.
    split; [| split]; try reflexivity; (split; [assumption | exists hourly; auto]).
  - unfold pret in Hrest. injection Hrest as <-. now left.
Qed.

Lemma plot_model_sourced (gfs ecmwf data : value) (vars : list string)
    (var nm col : string) (k : trace_kind) (fl : bool) (c : option (nat * nat))
    (fig fig' : figure) :
  (data = gfs /\ col = GFS_COLOR) \/ (data = ecmwf /\ col = ECMWF_COLOR) ->
  In var vars ->
  Forall (sourced gfs ecmwf vars) fig ->
  plot_model data var k nm col fl c fig = (Return tt, fig') ->
  Forall (sourced gfs ecmwf vars) fig'.
Proof.
  intros Hwho Hvar Hfig Hrun.
  apply plot_model_return in Hrun as [-> | [xs [ys [Hx [Hy ->]]]]]; [assumption |].
  apply Forall_app. split; [assumption |]. constructor; [| constructor].
  unfold sourced. simpl.
  destruct Hwho as [[-> ->] | [-> ->]].
  - split; [now left | split].
    + intros _. exists var. auto.
    + intros Habs. exfalso. exact (colors_differ Habs).
  - split; [now right | split].
    + intros Habs. exfalso. exact (colors_differ (eq_sym Habs)).
    + intros _. exists var. auto.
Qed.

(** An absent response skips the block. *)
Lemma plot_model_absent (var nm col : string) (k : trace_kind) (fl : bool)
    (c : option (nat * nat)) (fig : figure) :
  plot_model VNone var k nm col fl c fig = (Return tt, fig).
Proof. reflexivity. Qed.

(** A complete response adds the trace. *)
Lemma plot_model_complete (data : value) (vars : list string) (var nm col : string)
    (k : trace_kind) (fl : bool) (c : option (nat * nat)) (fig : figure) :
  complete data vars -> In var vars ->
  exists xs ys,
    provides data "time" xs /\ provides data var ys
    /\ plot_model data var k nm col fl c fig
       = (Return tt,
          (fig ++ [{| kind := k; x := xs; y := ys; name := nm; color := col;
                      filled := fl; cell := c |}])%list).
Proof.
  intros [d [h [-> [Hh [[xs Hx] Hvars]]]]] Hin.
  destruct (Hvars var Hin) as [ys Hy].
  exists (VList xs), (VList ys).
  assert (provides (VDict d) "time" (VList xs)) as Hpx.
  { split; [discriminate |]. exists (VDict h). simpl. rewrite Hh, Hx. auto. }
  assert (provides (VDict d) var (VList ys)) as Hpy.
  { split; [discriminate |]. exists (VDict h). simpl. rewrite Hh, Hy. auto. }
  split; [assumption | split; [assumption |]].
  unfold Charts.plot_model, pbind, lift, has_hourly.
  assert (truthy (VDict d) = true) as -> by (destruct d; [discriminate | reflexivity]).
  unfold contains, getitem_key at 1 3. rewrite Hh.
  unfold rbind, getitem_key. rewrite Hx, Hy. unfold new_trace.
  rewrite !lists_are_array_data. reflexivity.
Qed.

Ltac advance :=
  match goal with
  | HF : Forall (sourced ?g ?e ?vars) ?f0,
    Hs : Charts.plot_model _ ?d ?var ?k ?nm ?col ?fl ?c ?f0 = (Return tt, ?f1) |- _ =>
      let HF' := fresh "HF" in
      assert (Forall (sourced g e vars) f1) as HF'
        by (apply (plot_model_sourced g e d vars var nm col k fl c f0 f1);
            [ first [left; split; reflexivity | right; split; reflexivity]
            | simpl; auto 10
            | exact HF
            | exact Hs ]);
      clear Hs HF
  end.

Ltac steps H :=
  apply build_return in H;
  repeat match type of H with
         | pbind _ _ _ = _ =>
             let Hs := fresh "Hs" in apply pbind_return in H as [[] [? [Hs H]]]
         end.

Lemma builders_guarded :
  Forall (fun bv => guarded (fst bv) (snd bv)) (chart_builders data_array_ok).
Proof.
  unfold chart_builders.
  repeat (apply Forall_cons; [cbn [fst snd]; intros gfs ecmwf fig Hrun |]);
    [.. | apply Forall_nil];
    match goal with
    | |- Forall (sourced _ _ ?vars) _ =>
        assert (Forall (sourced gfs ecmwf vars) []) as HF0 by constructor
    end;
    steps Hrun; repeat advance; assumption.
Qed.

Lemma guarded_absent_is_silent (builder : value -> value -> result figure)
    (vars : list string) :
  guarded builder vars -> builder VNone VNone = Return [] -> absent_is_silent builder.
Proof.
  intros Hg Hnone. split; [assumption | split].
  - intros ecmwf fig Hrun. specialize (Hg _ _ _ Hrun).
    eapply Forall_impl; [| exact Hg]. intros t [[Hc | Hc] [Hgfs _]]; [| assumption].
    destruct (Hgfs Hc) as [var [_ [[Habs _] _]]]. congruence.
  - intros gfs fig Hrun. specialize (Hg _ _ _ Hrun).
    eapply Forall_impl; [| exact Hg]. intros t [[Hc | Hc] [_ Hec]]; [assumption |].
    destruct (Hec Hc) as [var [_ [[Habs _] _]]]. congruence.
Qed.

(** C3.  Each of the four builders adds a trace for a model only if that
    model's response is present and holds the plotted variable; an absent
    response adds no trace and raises nothing.  With GFS absent and a
    complete ECMWF response the temperature chart is exactly the one ECMWF
    trace (the dashboard has the four ECMWF traces), and with both absent
    every builder returns the empty figure. *)
Theorem builders_add_guarded_traces :
  Forall (fun bv => guarded (fst bv) (snd bv) /\ absent_is_silent (fst bv))
         (chart_builders data_array_ok)
  /\ (forall ecmwf, complete ecmwf ["temperature_2m"] ->
       exists t,
         create_temperature_comparison_chart data_array_ok VNone ecmwf = Return [t]
         /\ name t = "ECMWF"
         /\ provides ecmwf "time" (x t)
         /\ provides ecmwf "temperature_2m" (y t))
  /\ (forall ecmwf,
       complete ecmwf ["temperature_2m"; "precipitation"; "wind_speed_10m";
                       "relative_humidity_2m"] ->
       exists t1 t2 t3 t4,
         create_multi_variable_dashboard data_array_ok VNone ecmwf
         = Return [t1; t2; t3; t4]
         /\ map name [t1; t2; t3; t4]
            = ["ECMWF"; "ECMWF Precip"; "ECMWF Wind"; "ECMWF Humidity"]).
Proof.
  split; [| split].
  - pose proof builders_guarded as Hg. unfold chart_builders in *.
    repeat match goal with
           | H : Forall _ (_ :: _) |- _ => inversion H; subst; clear H
           end.
    repeat constructor; cbn [fst snd] in *; try assumption;
      (eapply guarded_absent_is_silent; [eassumption | reflexivity]).
  - intros ecmwf Hc.
    destruct (plot_model_complete ecmwf _ "temperature_2m" "ECMWF" ECMWF_COLOR
                Scatter false None [] Hc (or_introl eq_refl))
      as [xs [ys [Hx [Hy Hrun]]]].
    eexists. unfold create_temperature_comparison_chart, build, pbind.
    rewrite plot_model_absent, Hrun. simpl.
    split; [reflexivity | split; [reflexivity | split; assumption]].
  - intros ecmwf Hc.
    unfold create_multi_variable_dashboard, build, pbind.
    rewrite plot_model_absent.
    destruct (plot_model_complete ecmwf _ "temperature_2m" "ECMWF" ECMWF_COLOR
                Scatter false (Some (1, 1)%nat) [] Hc ltac:(simpl; auto 10))
      as [xs1 [ys1 [_ [_ ->]]]].
    rewrite plot_model_absent.
    match goal with |- context [Charts.plot_model _ ecmwf _ _ _ _ _ _ ?f] =>
      destruct (plot_model_complete ecmwf _ "precipitation" "ECMWF Precip" ECMWF_COLOR
                  Bar false (Some (1, 2)%nat) f Hc ltac:(simpl; auto 10))
        as [xs2 [ys2 [_ [_ ->]]]]
    end.
    rewrite plot_model_absent.
    match goal with |- context [Charts.plot_model _ ecmwf _ _ _ _ _ _ ?f] =>
      destruct (plot_model_complete ecmwf _ "wind_speed_10m" "ECMWF Wind" ECMWF_COLOR
                  Scatter false (Some (2, 1)%nat) f Hc ltac:(simpl; auto 10))
        as [xs3 [ys3 [_ [_ ->]]]]
    end.
    rewrite plot_model_absent.
    match goal with |- context [Charts.plot_model _ ecmwf _ _ _ _ _ _ ?f] =>
      destruct (plot_model_complete ecmwf _ "relative_humidity_2m" "ECMWF Humidity"
                  ECMWF_COLOR Scatter false (Some (2, 2)%nat) f Hc ltac:(simpl; auto 10))
        as [xs4 [ys4 [_ [_ ->]]]]
    end.
    simpl. do 4 eexists. split; reflexivity.
Qed.

End Facts.

Import Samples.

Lemma builders_add_guarded_traces_witness :
  complete hourly_payload ["temperature_2m"]
  /\ exists t,
       create_temperature_comparison_chart array_like VNone hourly_payload = Return [t]
       /\ name t = "ECMWF"
       /\ y t = VList [VInt 3; VInt 4].
Proof.
  assert (complete hourly_payload ["temperature_2m"]) as Hc.
  { do 2 eexists. split; [reflexivity |]. split; [reflexivity |].
    split; [eexists; reflexivity |].
    intros var [<- | []]. eexists. reflexivity. }
  split; [exact Hc |].
  destruct (proj1 (proj2 (builders_add_guarded_traces array_like
                            (fun l => eq_refl))) hourly_payload Hc)
    as [t [Hrun [Hname _]]].
  exists t. split; [exact Hrun | split; [exact Hname |]].
  cbv in Hrun. injection Hrun as <-. reflexivity.
Defined.

(** Beside C3: the guard tests for [hourly] only, so a present response
    whose [hourly] lacks the plotted variable raises [KeyError]. *)
Example create_temperature_comparison_chart_missing_variable :
  create_temperature_comparison_chart array_like VNone
    (VDict [("hourly", VDict [("time", VList [])])])
  = Raise KeyError.
Proof. reflexivity. Qed.

End ChartsFacts.

(** ** Alert map builder *)

Module MapsFacts.
Import Maps.

Lemma severity_color_in_palette (severity : value) (c : string) :
  severity_color severity = Return c -> In c (map snd SEVERITY_COLORS).
Proof.
  assert (In "#808080" (map snd SEVERITY_COLORS)) as Hdefault by (simpl; auto 10).
  destruct severity; simpl; try (intros [= <-]; exact Hdefault); try discriminate.
  repeat match goal with
         | |- context [if String.eqb ?a ?b then _ else _] => destruct (String.eqb a b)
         end; intros [= <-]; simpl; auto 10.
Qed.

Section Facts.

Variable str_other : value -> string.

Local Notation add_alert := (add_alert str_other).
Local Notation create_alerts_map := (create_alerts_map str_other).

(** One turn of the loop on a well-formed alert adds exactly one element. *)
Lemma add_alert_ok (center : pyfloat * pyfloat) (alert : value) (m : list element) :
  alert_ok alert = true ->
  exists e, add_alert center alert m = (Return tt, (m ++ [e])%list)
            /\ drawn_as center alert e.
Proof.
  unfold alert_ok. intros Hok.
  apply andb_prop in Hok as [Hok Hgeom]. apply andb_prop in Hok as [Hok Hsev].
  apply andb_prop in Hok as [Hdict Hprops].
  destruct alert as [| | | | | |a]; try discriminate. clear Hdict.
  unfold Maps.add_alert, pbind, lift. simpl get_method at 1 2.
  change (match dict_find "properties" a with Some v => v | None => VDict [] end)
    with (properties_of (VDict a)).
  change (match dict_find "geometry" a with Some v => v | None => VNone end)
    with (field "geometry" (VDict a)).
  unfold drawn_as, polygonal.
  set (alert := VDict a) in *. set (geometry := field "geometry" alert) in *.
  unfold severity_of in *.
  destruct (properties_of alert) as [| | | | | |p]; try discriminate. clear Hprops.
  simpl get_method.
  set (severity := match dict_find "severity" p with
                   | Some v => v | None => VStr "Unknown" end) in *.
  destruct (severity_color severity) as [c |] eqn:Hcolor;
    [| destruct severity; simpl in Hcolor; discriminate].
  pose proof (severity_color_in_palette _ _ Hcolor) as Hpalette.
  unfold is_polygonal.
  destruct (truthy geometry) eqn:Htruthy.
  - simpl in Hgeom. destruct geometry as [| | | | | |g]; try discriminate.
    simpl get_method. unfold rbind. simpl field.
    destruct (is_str "Polygon" _ || is_str "MultiPolygon" _); rewrite ?Hcolor.
    + eexists. split; [reflexivity |]. do 2 eexists. split; [reflexivity | auto].
    + eexists. split; [reflexivity |]. eexists. reflexivity.
  - assert (field "type" geometry = VNone) as ->.
    { destruct geometry as [| | | | | |g]; try reflexivity.
      destruct g; [reflexivity | discriminate]. }
    simpl. rewrite ?Hcolor. eexists. split; [reflexivity |]. eexists. reflexivity.
Qed.

Lemma add_alerts_ok (center : pyfloat * pyfloat) (l : list value) (m : list element) :
  forallb alert_ok l = true ->
  exists es, for_each (add_alert center) l m = (Return tt, (m ++ es)%list)
             /\ Forall2 (drawn_as center) l es.
Proof.
  revert m. induction l as [| alert l IH]; intros m Hall.
  - exists []. rewrite app_nil_r. split; [reflexivity | constructor].
  - simpl in Hall. apply andb_prop in Hall as [Hok Hall].
    destruct (add_alert_ok center alert m Hok) as [e [Hrun Hdrawn]].
    destruct (IH (m ++ [e])%list Hall) as [es [Hrest Hes]].
    exists (e :: es). simpl for_each. unfold pbind at 1. rewrite Hrun, Hrest.
    rewrite <- app_assoc. split; [reflexivity | constructor; assumption].
Qed.

(** C9.  On a list of well-formed alert features [create_alerts_map] adds
    exactly one element per alert, in order: a shape in the palette colour
    of the alert's severity when its geometry type is [Polygon] or
    [MultiPolygon], the fallback pin otherwise.  Two polygonal alerts of
    severity [Extreme] and [Minor] give two shapes coloured [#FF0000] and
    [#00FF00]. *)
Theorem create_alerts_map_one_element_per_alert :
  (forall (l : list value) (state : string),
      forallb alert_ok l = true ->
      exists m,
        create_alerts_map (VList l) state = Return m
        /\ length (children m) = length l
        /\ Forall2 (drawn_as (location m)) l (children m))
  /\ (forall (a1 a2 : value) (state : string),
        alert_ok a1 = true -> alert_ok a2 = true ->
        polygonal a1 = true -> polygonal a2 = true ->
        severity_of a1 = VStr "Extreme" -> severity_of a2 = VStr "Minor" ->
        exists m p1 p2,
          create_alerts_map (VList [a1; a2]) state = Return m
          /\ children m = [GeoJson (field "geometry" a1) "#FF0000" "#FF0000" p1;
                           GeoJson (field "geometry" a2) "#00FF00" "#00FF00" p2]).
Proof.
  assert (forall (l : list value) (state : string),
             forallb alert_ok l = true ->
             exists m,
               create_alerts_map (VList l) state = Return m
               /\ length (children m) = length l
               /\ Forall2 (drawn_as (location m)) l (children m)) as Hmain.
  { intros l state Hall. unfold Maps.create_alerts_map.
    set (center := match table_find state STATE_CENTERS with
                   | Some c => c | None => default_center end).
    unfold pbind at 1. unfold lift at 1. simpl iterate.
    destruct (add_alerts_ok center l [] Hall) as [es [Hrun Hes]].
    rewrite Hrun. eexists. split; [reflexivity |]. simpl.
    split; [symmetry; eapply Forall2_length; exact Hes | exact Hes]. }
  split; [exact Hmain |].
  intros a1 a2 state Hok1 Hok2 Hpoly1 Hpoly2 Hsev1 Hsev2.
  destruct (Hmain [a1; a2] state) as [m [Hrun [_ Hdrawn]]].
  { simpl. rewrite Hok1, Hok2. reflexivity. }
  inversion Hdrawn as [| ? e1 ? es1 Hd1 Hrest]; subst.
  inversion Hrest as [| ? e2 ? es2 Hd2 Hnil]; subst.
  inversion Hnil; subst.
  unfold drawn_as in Hd1, Hd2. rewrite Hpoly1 in Hd1. rewrite Hpoly2 in Hd2.
  destruct Hd1 as [c1 [p1 [-> [Hc1 _]]]]. destruct Hd2 as [c2 [p2 [-> [Hc2 _]]]].
  rewrite Hsev1 in Hc1. rewrite Hsev2 in Hc2.
  injection Hc1 as <-. injection Hc2 as <-.
  exists m, p1, p2. split; [exact Hrun | congruence].
Qed.

End Facts.

Import Samples.

Lemma create_alerts_map_one_element_per_alert_witness :
  forallb alert_ok [alert "Extreme" polygon; alert "Minor" VNone] = true
  /\ exists m,
       create_alerts_map sample_text
         (VList [alert "Extreme" polygon; alert "Minor" VNone]) "CA" = Return m
       /\ length (children m) = 2%nat.
Proof.
  split; [reflexivity |].
  destruct (proj1 (create_alerts_map_one_element_per_alert sample_text)
              [alert "Extreme" polygon; alert "Minor" VNone] "CA" eq_refl)
    as [m [Hrun [Hlen _]]].
  exists m. split; assumption.
Defined.

(** The end-to-end example: state [CA], two polygonal alerts of severity
    [Extreme] and [Minor]. *)
Example create_alerts_map_extreme_minor :
  exists p1 p2,
    create_alerts_map sample_text
      (VList [alert "Extreme" polygon; alert "Minor" polygon]) "CA"
    = Return {| location := (deg6 36116203, deg6 (-119681564));
                zoom_start := 6;
                tiles := "CartoDB positron";
                children := [GeoJson polygon "#FF0000" "#FF0000" p1;
                             GeoJson polygon "#00FF00" "#00FF00" p2] |}.
Proof. do 2 eexists. reflexivity. Qed.

(** A non-polygonal geometry (here a [Point]) takes the pin. *)
Example create_alerts_map_point_geometry :
  exists popup,
    create_alerts_map sample_text
      (VList [alert "Severe" (VDict [("type", VStr "Point")])]) "ZZ"
    = Return {| location := default_center;
                zoom_start := 6;
                tiles := "CartoDB positron";
                children := [Marker default_center popup "red" "exclamation-triangle" "fa"] |}.
Proof. eexists. reflexivity. Qed.

End MapsFacts.

(** * Further properties of the code *)

(** ** RainViewer: both normalizers on arbitrary payloads *)

Module RainviewerMore.
Import Rainviewer Terms.

Lemma append_nonempty (a b : string) : (a ++ b)%string = "" -> b = "".
Proof. destruct a; simpl; [auto | discriminate]. Qed.

Lemma append_assoc (a b c : string) : ((a ++ b) ++ c = a ++ (b ++ c))%string.
Proof. induction a as [| ch a IH]; simpl; [reflexivity | now rewrite IH]. Qed.

Lemma norm_index_some (n : nat) (i : Z) (j : nat) :
  norm_index n i = Some j ->
  - Z.of_nat n <= i < Z.of_nat n /\ j = Z.to_nat (i mod Z.of_nat n).
Proof.
  intros H.
  assert (- Z.of_nat n <= i < Z.of_nat n) as Hrange.
  { destruct (Z_lt_ge_dec i (- Z.of_nat n)) as [Hlo | Hlo].
    - rewrite PyFacts.norm_index_out_of_range in H by (left; exact Hlo). discriminate.
    - destruct (Z_lt_ge_dec i (Z.of_nat n)) as [Hhi | Hhi]; [lia |].
      rewrite PyFacts.norm_index_out_of_range in H by (right; lia). discriminate. }
  split; [exact Hrange |].
  rewrite (PyFacts.norm_index_in_range n i Hrange) in H. congruence.
Qed.

Lemma chars_are_strings (s : string) (j : nat) (v : value) :
  nth_error (chars s) j = Some v -> exists c, v = VStr c.
Proof.
  revert j. induction s as [| a s IH]; intros [| j]; simpl; try discriminate.
  - intros [= <-]. eexists. reflexivity.
  - apply IH.
Qed.

Lemma leading_ok_stops (l : list value) (j : nat) (f : value) :
  nth_error l j = Some f -> frame_ok f = false -> (length (leading_ok l) <= j)%nat.
Proof.
  revert j. induction l as [| e l IH]; intros [| j]; simpl; try discriminate.
  - intros [= ->] ->. simpl. lia.
  - intros Hnth Hbad. destruct (frame_ok e); simpl; [| lia].
    specialize (IH j Hnth Hbad). lia.
Qed.

Section Facts.

Variable str_other : value -> string.

Local Notation tile_url := (tile_url str_other).
Local Notation radar_frame := (radar_frame str_other).
Local Notation get_radar_tile_url := (get_radar_tile_url str_other).
Local Notation get_all_radar_frames := (get_all_radar_frames str_other).

Lemma radar_is_object_past (rd : value) :
  radar_is_object rd = true ->
  exists host past,
    get_method rd "host" (VStr default_host) = Return host
    /\ radar_past rd = Return past.
Proof.
  destruct rd as [| | | | | |d]; simpl; try discriminate.
  unfold radar_past. simpl.
  destruct (dict_find "radar" d) as [r |]; intros Hobj.
  - destruct r; try discriminate. eexists. eexists. split; reflexivity.
  - eexists. eexists. split; reflexivity.
Qed.

Lemma radar_not_object_raises (rd : value) :
  radar_is_object rd = false -> radar_past rd = Raise AttributeError.
Proof.
  destruct rd as [| | | | | |d]; simpl; try reflexivity.
  unfold radar_past. simpl.
  destruct (dict_find "radar" d) as [r |]; [| discriminate].
  destruct r; try reflexivity. discriminate.
Qed.

Lemma get_all_not_object (rd : value) :
  radar_is_object rd = false -> get_all_radar_frames rd = Raise AttributeError.
Proof.
  intros Hnot. pose proof (radar_not_object_raises rd Hnot) as Hraise.
  unfold Rainviewer.get_all_radar_frames, ptry, pbind, lift.
  unfold radar_past in Hraise.
  destruct (get_method rd "host" (VStr default_host)) as [host | e] eqn:Hhost.
  - destruct (get_method rd "radar" (VDict [])) as [radar | e].
    + simpl in Hraise. rewrite Hraise. reflexivity.
    + injection Hraise as ->. reflexivity.
  - destruct rd; simpl in Hhost; try discriminate; injection Hhost as <-; reflexivity.
Qed.

(** X1.  [get_all_radar_frames] returns a list whenever the payload is an
    object whose [radar], when present, is an object; on every other input
    it raises [AttributeError].  No other exception leaves it. *)
Theorem get_all_radar_frames_raises_iff (rd : value) :
  (radar_is_object rd = true -> exists frames, get_all_radar_frames rd = Return frames)
  /\ (radar_is_object rd = false -> get_all_radar_frames rd = Raise AttributeError).
Proof.
  split.
  - intros Hobj. destruct (radar_is_object_past rd Hobj) as [host [past [Hh Hp]]].
    eexists. apply (RainviewerFacts.get_all_radar_frames_shape str_other rd host past Hh Hp).
  - apply get_all_not_object.
Qed.

Lemma returned_frames_shape (rd : value) (frames : list value) :
  get_all_radar_frames rd = Return frames ->
  Forall (fun f => exists time pre,
                     f = VDict [("time", time); ("url", VStr (pre ++ tile_suffix))])
         frames.
Proof.
  intros Hrun.
  destruct (radar_is_object rd) eqn:Hobj.
  - destruct (radar_is_object_past rd Hobj) as [host [past [Hh Hp]]].
    rewrite (RainviewerFacts.get_all_radar_frames_shape str_other rd host past Hh Hp) in Hrun.
    injection Hrun as <-. apply Forall_forall. intros f Hin.
    apply in_map_iff in Hin as [e [<- _]].
    unfold Rainviewer.radar_frame.
    exists (field "time" e),
           (format_value str_other host ++ format_value str_other (field "path" e))%string.
    rewrite append_assoc. reflexivity.
  - rewrite (get_all_not_object rd Hobj) in Hrun. discriminate.
Qed.

(** The frame at a slider position of a returned list. *)
Lemma returned_frame_at (rd : value) (frames : list value) (frame_idx : Z) :
  get_all_radar_frames rd = Return frames ->
  0 <= frame_idx <= Z.of_nat (length frames) - 1 ->
  exists time pre,
    getitem_index (VList frames) frame_idx
    = Return (VDict [("time", time); ("url", VStr (pre ++ tile_suffix))]).
Proof.
  intros Hrun Hidx. pose proof (returned_frames_shape rd frames Hrun) as Hshape.
  unfold getitem_index.
  rewrite (PyFacts.norm_index_in_range (length frames) frame_idx) by lia.
  rewrite Z.mod_small by lia.
  destruct (nth_error frames (Z.to_nat frame_idx)) as [f |] eqn:Hnth;
    [| apply nth_error_None in Hnth; lia].
  rewrite Forall_forall in Hshape.
  destruct (Hshape f (nth_error_In _ _ Hnth)) as [time [pre ->]].
  exists time, pre. reflexivity.
Qed.

Lemma suffixed_is_truthy (pre : string) : truthy (VStr (pre ++ tile_suffix)) = true.
Proof.
  simpl. destruct (String.eqb_spec (pre ++ tile_suffix) "") as [Hempty |]; [| reflexivity].
  apply append_nonempty in Hempty. discriminate.
Qed.

(** X2.  Every frame returned by [get_all_radar_frames], on any payload,
    is a [{time, url}] object whose [url] is a non-empty string ending in
    the tile suffix; so the dashboard's [frames[frame_idx]["time"]] and
    [["url"]], for any slider position [0 .. len(frames) - 1], never raise. *)
Theorem returned_frames_selectable (rd : value) (frames : list value) (frame_idx : Z) :
  get_all_radar_frames rd = Return frames ->
  0 <= frame_idx <= Z.of_nat (length frames) - 1 ->
  exists time pre,
    Dashboard.selected_frame frames frame_idx
    = Return (time, VStr (pre ++ tile_suffix))
    /\ truthy (VStr (pre ++ tile_suffix)) = true.
Proof.
  intros Hrun Hidx.
  destruct (returned_frame_at rd frames frame_idx Hrun Hidx) as [time [pre Hat]].
  exists time, pre. unfold Dashboard.selected_frame. rewrite Hat.
  split; [reflexivity | apply suffixed_is_truthy].
Qed.

(** X3.  On a frame list of [n] entries, index [i - n] denotes the same
    frame as index [i] for [0 <= i < n]: [-1] is the last frame, [-n] the
    first. *)
Theorem get_radar_tile_url_negative_index (rd : value) (l : list value) (i : Z) :
  radar_past rd = Return (VList l) ->
  0 <= i < Z.of_nat (length l) ->
  get_radar_tile_url rd (i - Z.of_nat (length l)) = get_radar_tile_url rd i.
Proof.
  intros Hpast Hi. unfold Rainviewer.get_radar_tile_url. unfold radar_past in Hpast.
  destruct (get_method rd "radar" (VDict [])) as [radar |]; [| discriminate].
  simpl in Hpast. cbn [rbind]. rewrite Hpast. cbn [rbind].
  destruct (negb (truthy (VList l))); [reflexivity |].
  unfold getitem_index.
  rewrite (PyFacts.norm_index_in_range (length l) (i - Z.of_nat (length l))) by lia.
  rewrite (PyFacts.norm_index_in_range (length l) i) by lia.
  assert ((i - Z.of_nat (length l)) mod Z.of_nat (length l) = i mod Z.of_nat (length l))
    as ->; [| reflexivity].
  rewrite <- (Z.mod_add i (-1) (Z.of_nat (length l))) by lia. f_equal; lia.
Qed.

(** X4.  [get_radar_tile_url] returns a URL exactly when [past] is a list,
    the index is within [-n .. n-1] and the entry at that position is an
    object with a [path]; the URL is then [{host}{path}] followed by the
    tile suffix.  The entry's [time] is not needed. *)
Theorem get_radar_tile_url_returns_url_iff (rd : value) (i : Z) (u : string) :
  get_radar_tile_url rd i = Return (VStr u)
  <-> exists host l f path,
        get_method rd "host" (VStr default_host) = Return host
        /\ radar_past rd = Return (VList l)
        /\ - Z.of_nat (length l) <= i < Z.of_nat (length l)
        /\ nth_error l (Z.to_nat (i mod Z.of_nat (length l))) = Some f
        /\ getitem_key f "path" = Return path
        /\ u = (format_value str_other host ++ format_value str_other path
                ++ tile_suffix)%string.
Proof.
  split.
  - unfold Rainviewer.get_radar_tile_url, radar_past. intros H.
    destruct (get_method rd "radar" (VDict [])) as [radar | e]; cbn [rbind] in *;
      [| destruct e; discriminate].
    destruct (get_method radar "past" (VList [])) as [past | e]; cbn [rbind] in *;
      [| destruct e; discriminate].
    destruct (truthy past) eqn:Htruthy; cbn [negb] in H; [| discriminate].
    destruct (getitem_index past i) as [f | e] eqn:Hidx; cbn [rbind] in H;
      [| destruct e; discriminate].
    destruct (getitem_key f "path") as [path | e] eqn:Hpath; cbn [rbind] in H;
      [| destruct e; discriminate].
    destruct (get_method rd "host" (VStr default_host)) as [host | e] eqn:Hhost;
      cbn [rbind] in H; [| destruct e; discriminate].
    revert H. unfold try_except.
    unfold rbind. intros [= <-].
    assert (exists d, f = VDict d) as [fd ->]
      by (destruct f; simpl in Hpath; try discriminate; eexists; reflexivity).
    destruct past as [| | | | s | l |]; simpl in Hidx; try discriminate.
    + destruct (norm_index (length (chars s)) i) as [j |]; [| discriminate].
      destruct (nth_error (chars s) j) as [v |] eqn:Hnth; [| discriminate].
      injection Hidx as ->. apply chars_are_strings in Hnth as [c Hc]. discriminate.
    + destruct (norm_index (length l) i) as [j |] eqn:Hnorm; [| discriminate].
      destruct (nth_error l j) as [v |] eqn:Hnth; [| discriminate].
      injection Hidx as ->. apply norm_index_some in Hnorm as [Hrange ->].
      exists host, l, (VDict fd), path. repeat split; try assumption; try lia.
  - intros [host [l [f [path [Hhost [Hpast [Hrange [Hnth [Hpath ->]]]]]]]]].
    apply (RainviewerFacts.get_radar_tile_url_at str_other rd host l i f path);
      assumption.
Qed.

(** X5.  The two normalizers disagree on an entry that has a [path] but no
    [time]: the single-frame lookup serves its URL, while the bulk listing
    stops before it, dropping that entry and every later one. *)
Theorem entry_without_time (rd host : value) (l : list value) (j : nat) (f path : value) :
  get_method rd "host" (VStr default_host) = Return host ->
  radar_past rd = Return (VList l) ->
  nth_error l j = Some f ->
  getitem_key f "path" = Return path ->
  getitem_key f "time" = Raise KeyError ->
  get_radar_tile_url rd (Z.of_nat j) = Return (VStr (tile_url host path))
  /\ exists frames,
       get_all_radar_frames rd = Return frames /\ (length frames <= j)%nat.
Proof.
  intros Hhost Hpast Hnth Hpath Htime.
  assert (j < length l)%nat as Hj by (apply nth_error_Some; congruence).
  split.
  - apply (RainviewerFacts.get_radar_tile_url_at str_other rd host l (Z.of_nat j) f path);
      try assumption; [lia |].
    rewrite Z.mod_small by lia. rewrite Nat2Z.id. exact Hnth.
  - exists (map (radar_frame host) (leading_ok l)). split.
    + apply (RainviewerFacts.get_all_radar_frames_shape str_other rd host (VList l));
        assumption.
    + rewrite length_map. apply (leading_ok_stops l j f Hnth).
      destruct f as [| | | | | |d]; simpl in *; try discriminate.
      destruct (dict_find "path" d); [| discriminate].
      destruct (dict_find "time" d); [discriminate | reflexivity].
Qed.

(** X6.  [fetch_radar_timestamps] makes one GET without parameters or
    headers.  A failed fetch gives [None], which is falsy and on which
    [get_all_radar_frames] raises [AttributeError] (the dashboard tests
    [not radar_data] first); a body that is an object with well-formed
    entries gives, once normalized, one frame per entry in order. *)
Theorem fetched_radar_frames (net : Http.transport) (log : list Http.request) :
  (net log RadarFetch.radar_request = Http.GetRaised
   \/ net log RadarFetch.radar_request = Http.StatusRaised
   \/ net log RadarFetch.radar_request = Http.JsonRaised ->
   RadarFetch.fetch_radar_timestamps net log
   = (Return VNone, (log ++ [RadarFetch.radar_request])%list)
   /\ truthy VNone = false
   /\ get_all_radar_frames VNone = Raise AttributeError)
  /\ (forall rd host l,
        net log RadarFetch.radar_request = Http.Json rd ->
        get_method rd "host" (VStr default_host) = Return host ->
        radar_past rd = Return (VList l) ->
        forallb frame_ok l = true ->
        RadarFetch.fetch_radar_timestamps net log
        = (Return rd, (log ++ [RadarFetch.radar_request])%list)
        /\ get_all_radar_frames rd = Return (map (radar_frame host) l)).
Proof.
  split.
  - intros Hfail. unfold RadarFetch.fetch_radar_timestamps, Http.get_json.
    rewrite (NwsFacts.unreachable_is_absent _ Hfail). repeat split.
  - intros rd host l Hbody Hhost Hpast Hall.
    unfold RadarFetch.fetch_radar_timestamps, Http.get_json. rewrite Hbody.
    split; [reflexivity |].
    rewrite (RainviewerFacts.get_all_radar_frames_shape str_other rd host (VList l) Hhost Hpast).
    simpl entries_of. rewrite RainviewerFacts.leading_ok_all by assumption. reflexivity.
Qed.

End Facts.

Import Samples MoreSamples.

Lemma get_all_radar_frames_raises_iff_witness :
  (exists frames, Rainviewer.get_all_radar_frames sample_text radar_payload = Return frames)
  /\ Rainviewer.get_all_radar_frames sample_text (VList [frame1]) = Raise AttributeError.
Proof.
  split.
  - apply (proj1 (get_all_radar_frames_raises_iff sample_text radar_payload)). reflexivity.
  - apply (proj2 (get_all_radar_frames_raises_iff sample_text (VList [frame1]))). reflexivity.
Defined.

Lemma returned_frames_selectable_witness :
  exists time pre,
    Dashboard.selected_frame
      [VDict [("time", VInt 1700000000);
              ("url", VStr "https://tiles.example/v2/radar/1700000000/256/{z}/{x}/{y}/2/1_1.png")];
       VDict [("time", VInt 1700000600);
              ("url", VStr "https://tiles.example/v2/radar/1700000600/256/{z}/{x}/{y}/2/1_1.png")]]
      1
    = Return (time, VStr (pre ++ tile_suffix))
    /\ truthy (VStr (pre ++ tile_suffix)) = true.
Proof.
  apply (returned_frames_selectable sample_text radar_payload _ 1).
  - reflexivity.
  - simpl. lia.
Defined.

Lemma get_radar_tile_url_negative_index_witness :
  Rainviewer.get_radar_tile_url sample_text radar_payload (-2)
  = Rainviewer.get_radar_tile_url sample_text radar_payload 0.
Proof.
  apply (get_radar_tile_url_negative_index sample_text radar_payload [frame1; frame2] 0).
  - reflexivity.
  - simpl. lia.
Defined.

Lemma get_radar_tile_url_returns_url_iff_witness :
  Rainviewer.get_radar_tile_url sample_text radar_payload 1
  = Return (VStr "https://tiles.example/v2/radar/1700000600/256/{z}/{x}/{y}/2/1_1.png").
Proof.
  apply (proj2 (get_radar_tile_url_returns_url_iff sample_text radar_payload 1 _)).
  exists (VStr "https://tiles.example"), [frame1; frame2], frame2,
         (VStr "/v2/radar/1700000600").
  repeat split; try reflexivity; simpl; lia.
Defined.

Lemma entry_without_time_witness :
  Rainviewer.get_radar_tile_url sample_text radar_payload_untimed_entry 1
  = Return (VStr "https://tilecache.rainviewer.com/v2/radar/1700000300/256/{z}/{x}/{y}/2/1_1.png")
  /\ exists frames,
       Rainviewer.get_all_radar_frames sample_text radar_payload_untimed_entry
       = Return frames
       /\ (length frames <= 1)%nat.
Proof.
  apply (entry_without_time sample_text radar_payload_untimed_entry
           (VStr default_host) [frame1; frame_without_time; frame2] 1
           frame_without_time (VStr "/v2/radar/1700000300"));
    reflexivity.
Defined.

Lemma fetched_radar_frames_witness :
  RadarFetch.fetch_radar_timestamps (scripted [Http.Json radar_payload]) []
  = (Return radar_payload, [RadarFetch.radar_request])
  /\ Rainviewer.get_all_radar_frames sample_text radar_payload
     = Return (map (Rainviewer.radar_frame sample_text (VStr "https://tiles.example"))
                   [frame1; frame2]).
Proof.
  apply (proj2 (fetched_radar_frames sample_text (scripted [Http.Json radar_payload]) [])
           radar_payload (VStr "https://tiles.example") [frame1; frame2]);
    reflexivity.
Defined.

End RainviewerMore.

(** ** NWS adapter: runs of the two fetchers *)

Module NwsMore.
Import Nws Terms.

(** X9.  When the alerts request is answered with a JSON body,
    [fetch_alerts] (after that one request) raises, and then a [TypeError],
    never a [KeyError], exactly if the body is a truthy number or boolean, a
    list containing the string ["features"], or a string containing it; on
    every other body it returns. *)
Theorem fetch_alerts_raises_iff (net : Http.transport) (state : string)
    (log : list Http.request) (data : value) :
  let rq := nws_request (VStr (NWS_API_BASE ++ "/alerts/active/area/" ++ state)) in
  net log rq = Http.Json data ->
  exists r,
    fetch_alerts net state log = (r, (log ++ [rq])%list)
    /\ (alerts_body_rejected data = true -> r = Raise TypeError)
    /\ (alerts_body_rejected data = false -> exists v, r = Return v).
Proof.
  intros rq Hanswer. unfold fetch_alerts, pbind. rewrite NwsFacts.make_nws_request_run.
  fold (alerts_url state). unfold alerts_url. fold rq. rewrite Hanswer.
  cbn [Http.payload].
  unfold lift, lacks_features, alerts_body_rejected.
  destruct (truthy data) eqn:Htruthy; cbn [negb andb].
  - destruct data as [| b | n | f | s | l | d]; cbn [contains rbind].
    + discriminate.
    + eexists. split; [reflexivity |]. split; [reflexivity | discriminate].
    + eexists. split; [reflexivity |]. split; [reflexivity | discriminate].
    + eexists. split; [reflexivity |]. split; [reflexivity | discriminate].
    + destruct (String.index 0 "features" s); cbn [negb];
        eexists; (split; [reflexivity |]);
        (split; [try reflexivity; discriminate | try discriminate; eexists; reflexivity]).
    + destruct (existsb (is_str "features") l); cbn [negb];
        eexists; (split; [reflexivity |]);
        (split; [try reflexivity; discriminate | try discriminate; eexists; reflexivity]).
    + destruct (dict_find "features" d) as [v |] eqn:Hfind; cbn [negb].
      * unfold getitem_key. rewrite Hfind.
        eexists. split; [reflexivity |]. split; [discriminate | eexists; reflexivity].
      * eexists. split; [reflexivity |]. split; [discriminate | eexists; reflexivity].
  - eexists. split; [reflexivity |]. split; [discriminate | eexists; reflexivity].
Qed.

Section Forecast.

Variable str_other : value -> string.

(** X7.  The two-hop lookup: when the points body is an object with
    [properties.forecast] and the body fetched from that URL is an object
    with [properties.periods], [fetch_forecast] returns those periods
    unchanged, after exactly two requests, the second to the URL the points
    body named. *)
Theorem fetch_forecast_returns_periods (net : Http.transport) (lat lon : pyfloat)
    (log : list Http.request) (pd fd : list (string * value))
    (props u fprops periods : value) :
  let prq := nws_request (VStr (points_url str_other lat lon)) in
  Http.payload (net log prq) = VDict pd ->
  dict_find "properties" pd = Some props ->
  getitem_key props "forecast" = Return u ->
  Http.payload (net (log ++ [prq])%list (nws_request u)) = VDict fd ->
  dict_find "properties" fd = Some fprops ->
  getitem_key fprops "periods" = Return periods ->
  fetch_forecast str_other net lat lon log
  = (Return periods, ((log ++ [prq]) ++ [nws_request u])%list).
Proof.
  intros prq Hp Hprops Hu Hf Hfprops Hperiods.
  unfold Nws.fetch_forecast, pbind at 1. rewrite NwsFacts.make_nws_request_run. fold prq.
  rewrite Hp. destruct pd as [| kv pd']; [discriminate |].
  cbn [truthy negb]. unfold pbind at 1. unfold lift at 1.
  unfold getitem_key at 1. rewrite Hprops. cbn [rbind]. rewrite Hu.
  unfold pbind. rewrite NwsFacts.make_nws_request_run. rewrite Hf.
  destruct fd as [| kv2 fd']; [discriminate |].
  cbn [truthy negb]. unfold lift, getitem_key at 1. rewrite Hfprops. cbn [rbind].
  rewrite Hperiods. reflexivity.
Qed.

(** X10.  When the points lookup succeeded but the forecast request fails
    (or yields a falsy body), the result is [None] after exactly two
    requests. *)
Theorem fetch_forecast_second_hop_fails (net : Http.transport) (lat lon : pyfloat)
    (log : list Http.request) (pd : list (string * value)) (props u : value) :
  let prq := nws_request (VStr (points_url str_other lat lon)) in
  Http.payload (net log prq) = VDict pd ->
  dict_find "properties" pd = Some props ->
  getitem_key props "forecast" = Return u ->
  truthy (Http.payload (net (log ++ [prq])%list (nws_request u))) = false ->
  fetch_forecast str_other net lat lon log
  = (Return VNone, ((log ++ [prq]) ++ [nws_request u])%list).
Proof.
  intros prq Hp Hprops Hu Hfalsy.
  unfold Nws.fetch_forecast, pbind at 1. rewrite NwsFacts.make_nws_request_run. fold prq.
  rewrite Hp. destruct pd as [| kv pd']; [discriminate |].
  cbn [truthy negb]. unfold pbind at 1. unfold lift at 1.
  unfold getitem_key at 1. rewrite Hprops. cbn [rbind]. rewrite Hu.
  unfold pbind. rewrite NwsFacts.make_nws_request_run. rewrite Hfalsy. reflexivity.
Qed.

(** X8.  A call of [fetch_forecast] never makes more than two requests;
    every request it makes carries the NWS [User-Agent] and [Accept]
    headers, the 30 s timeout and no parameters; the first goes to the
    points URL of the coordinates, and a second one goes to the value found
    under [properties.forecast] of the points body. *)
Theorem fetch_forecast_run_shape (net : Http.transport) (lat lon : pyfloat)
    (log log' : list Http.request) (r : result value) :
  fetch_forecast str_other net lat lon log = (r, log') ->
  exists new,
    log' = (log ++ new)%list
    /\ (length new <= 2)%nat
    /\ Forall nws_shaped new
    /\ (forall rq rest, new = rq :: rest ->
                        Http.url rq = VStr (points_url str_other lat lon))
    /\ (forall rq1 rq2, new = [rq1; rq2] ->
          exists properties,
            getitem_key (Http.payload (net log rq1)) "properties" = Return properties
            /\ getitem_key properties "forecast" = Return (Http.url rq2)).
Proof.
  set (prq := nws_request (VStr (points_url str_other lat lon))).
  assert (forall u props,
             getitem_key (Http.payload (net log prq)) "properties" = Return props ->
             getitem_key props "forecast" = Return u ->
             (length [prq; nws_request u] <= 2)%nat
             /\ Forall nws_shaped [prq; nws_request u]
             /\ (forall rq rest, [prq; nws_request u] = rq :: rest ->
                                 Http.url rq = VStr (points_url str_other lat lon))
             /\ (forall rq1 rq2, [prq; nws_request u] = [rq1; rq2] ->
                   exists properties,
                     getitem_key (Http.payload (net log rq1)) "properties" = Return properties
                     /\ getitem_key properties "forecast" = Return (Http.url rq2))) as Htwo.
  { intros u props Hprops Hu. split; [simpl; lia |]. split; [repeat constructor |]. split.
    - intros rq rest [= <- _]. reflexivity.
    - intros rq1 rq2 [= <- <-]. exists props. split; assumption. }
  assert ((length [prq] <= 2)%nat
          /\ Forall nws_shaped [prq]
          /\ (forall rq rest, [prq] = rq :: rest ->
                              Http.url rq = VStr (points_url str_other lat lon))
          /\ (forall rq1 rq2, [prq] = [rq1; rq2] ->
                exists properties,
                  getitem_key (Http.payload (net log rq1)) "properties" = Return properties
                  /\ getitem_key properties "forecast" = Return (Http.url rq2))) as Hone.
  { split; [simpl; lia |]. split; [repeat constructor |]. split.
    - intros rq rest [= <- _]. reflexivity.
    - intros rq1 rq2 Habs. discriminate Habs. }
  unfold Nws.fetch_forecast, pbind at 1. rewrite NwsFacts.make_nws_request_run. fold prq.
  destruct (truthy (Http.payload (net log prq))); cbv beta iota delta [negb].
  - unfold pbind at 1. unfold lift at 1.
    destruct (getitem_key (Http.payload (net log prq)) "properties") as [props | e] eqn:Hprops;
      cbn [rbind].
    + destruct (getitem_key props "forecast") as [u | e] eqn:Hu.
      * unfold pbind. rewrite NwsFacts.make_nws_request_run.
        destruct (truthy (Http.payload (net (log ++ [prq])%list (nws_request u))));
          cbv beta iota delta [negb]; unfold lift, pret; intros [= _ <-];
          exists [prq; nws_request u]; rewrite <- app_assoc;
          (split; [reflexivity | exact (Htwo u props eq_refl Hu)]).
      * intros [= _ <-]. exists [prq]. split; [reflexivity | exact Hone].
    + intros [= _ <-]. exists [prq]. split; [reflexivity | exact Hone].
  - unfold pret. intros [= _ <-]. exists [prq]. split; [reflexivity | exact Hone].
Qed.

End Forecast.

Import Samples MoreSamples.

Lemma fetch_alerts_raises_iff_witness :
  exists r,
    fetch_alerts (scripted [Http.Json (VInt 5)]) "CA" []
    = (r, [nws_request (VStr "https://api.weather.gov/alerts/active/area/CA")])
    /\ r = Raise TypeError.
Proof.
  destruct (fetch_alerts_raises_iff (scripted [Http.Json (VInt 5)]) "CA" [] (VInt 5) eq_refl)
    as [r [Hrun [Hrej _]]].
  exists r. split; [exact Hrun | apply Hrej; reflexivity].
Defined.

Lemma fetch_forecast_returns_periods_witness :
  fetch_forecast sample_text
    (scripted [Http.Json points_payload; Http.Json forecast_payload])
    (fst new_york) (snd new_york) []
  = (Return periods,
     [nws_request (VStr "https://api.weather.gov/points/40.7128,-74.006");
      nws_request (VStr forecast_url)]).
Proof.
  apply (fetch_forecast_returns_periods sample_text
           (scripted [Http.Json points_payload; Http.Json forecast_payload])
           (fst new_york) (snd new_york) []
           [("properties", VDict [("forecast", VStr forecast_url)])]
           [("properties", VDict [("periods", periods)])]
           (VDict [("forecast", VStr forecast_url)]) (VStr forecast_url)
           (VDict [("periods", periods)]) periods);
    reflexivity.
Defined.

Lemma fetch_forecast_second_hop_fails_witness :
  fetch_forecast sample_text (scripted [Http.Json points_payload; Http.StatusRaised])
    (fst new_york) (snd new_york) []
  = (Return VNone,
     [nws_request (VStr "https://api.weather.gov/points/40.7128,-74.006");
      nws_request (VStr forecast_url)]).
Proof.
  apply (fetch_forecast_second_hop_fails sample_text
           (scripted [Http.Json points_payload; Http.StatusRaised])
           (fst new_york) (snd new_york) []
           [("properties", VDict [("forecast", VStr forecast_url)])]
           (VDict [("forecast", VStr forecast_url)]) (VStr forecast_url));
    reflexivity.
Defined.

Lemma fetch_forecast_run_shape_witness :
  exists new,
    [nws_request (VStr "https://api.weather.gov/points/40.7128,-74.006");
     nws_request (VStr forecast_url)] = ([] ++ new)%list
    /\ (length new <= 2)%nat
    /\ Forall nws_shaped new.
Proof.
  destruct (fetch_forecast_run_shape sample_text
              (scripted [Http.Json points_payload; Http.Json forecast_payload])
              (fst new_york) (snd new_york) [] _ _ eq_refl)
    as [new [Hlog [Hlen [Hshape _]]]].
  exists new. repeat split; assumption.
Defined.

End NwsMore.

(** ** Open-Meteo adapter: the two requests of a comparison *)

Module OpenMeteoMore.
Import OpenMeteo.

(** X11.  Whenever [fetch_multi_model_comparison] has made its two
    requests, they go to the same URL with the same timeout and carry the
    same parameters in the same order, equal under every key but [models],
    which is [gfs_seamless] in the first request and [ecmwf_ifs] in the
    second. *)
Theorem comparison_requests_differ_in_model (net : Http.transport) (lat lon : pyfloat)
    (vars : option (list string)) (log : list Http.request)
    (r : result value) (g e : Http.request) :
  fetch_multi_model_comparison net lat lon vars log = (r, (log ++ [g; e])%list) ->
  Http.url g = Http.url e
  /\ Http.headers g = Http.headers e
  /\ Http.timeout g = Http.timeout e
  /\ map fst (Http.params g) = map fst (Http.params e)
  /\ (forall k, k <> "models" ->
                dict_find k (Http.params g) = dict_find k (Http.params e))
  /\ dict_find "models" (Http.params g) = Some (VStr "gfs_seamless")
  /\ dict_find "models" (Http.params e) = Some (VStr "ecmwf_ifs").
Proof.
  unfold fetch_multi_model_comparison, pbind, pret.
  rewrite !OpenMeteoFacts.fetch_model_forecast_run. rewrite <- app_assoc.
  intros [= _ Hlog]. apply app_inv_head in Hlog. injection Hlog as <- <-.
  repeat split.
  intros k Hk. unfold forecast_request. cbn [Http.params dict_find].
  destruct (String.eqb_spec k "models") as [-> | _]; [congruence | reflexivity].
Qed.

Lemma comparison_requests_differ_in_model_witness :
  dict_find "hourly"
    (Http.params (forecast_request (fst Samples.new_york) (snd Samples.new_york)
                    "gfs_seamless" (Some ["precipitation"; "weather_code"])))
  = dict_find "hourly"
      (Http.params (forecast_request (fst Samples.new_york) (snd Samples.new_york)
                      "ecmwf_ifs" (Some ["precipitation"; "weather_code"]))).
Proof.
  apply (comparison_requests_differ_in_model
           (Samples.scripted []) (fst Samples.new_york) (snd Samples.new_york)
           (Some ["precipitation"; "weather_code"]) [] _ _ _ eq_refl).
  discriminate.
Defined.

End OpenMeteoMore.

(** ** Chart builders: what each block does with a response *)

Module ChartsMore.
Import Charts Terms.

Section Facts.

Variable data_array_ok : value -> bool.

Local Notation plot_model := (plot_model data_array_ok).
Local Notation plotted := (plotted data_array_ok).

(** A guarded block, in terms of [plotted]: it skips, appends one trace
    with the plotted series, or raises and leaves the figure as it was. *)
Lemma plot_model_plotted (data : value) (var nm col : string) (k : trace_kind)
    (fl : bool) (c : option (nat * nat)) (fig : figure) :
  plot_model data var k nm col fl c fig
  = match plotted data var with
    | Return None => (Return tt, fig)
    | Return (Some (xs, ys)) =>
        (Return tt,
         (fig ++ [{| kind := k; x := xs; y := ys; name := nm; color := col;
                     filled := fl; cell := c |}])%list)
    | Raise e => (Raise e, fig)
    end.
Proof.
  unfold Charts.plot_model, Terms.plotted, pbind, lift.
  destruct (has_hourly data) as [[|] | e]; cbn [rbind]; try reflexivity.
  destruct (getitem_key data "hourly") as [hourly | e]; cbn [rbind]; [| reflexivity].
  destruct (getitem_key hourly "time") as [xs | e]; cbn [rbind]; [| reflexivity].
  destruct (getitem_key hourly var) as [ys | e]; cbn [rbind]; [| reflexivity].
  unfold new_trace. destruct (data_array_ok xs && data_array_ok ys); reflexivity.
Qed.

Lemma plotted_without_hourly (d : list (string * value)) (var : string) :
  dict_find "hourly" d = None -> plotted (VDict d) var = Return None.
Proof.
  intros Hnone. unfold Terms.plotted, has_hourly.
  destruct d as [| kv d']; [reflexivity |].
  cbn [truthy contains]. rewrite Hnone. reflexivity.
Qed.

Lemma plotted_missing_variable (d h : list (string * value)) (var : string) :
  dict_find "hourly" d = Some (VDict h) ->
  dict_find var h = None ->
  plotted (VDict d) var = Raise KeyError.
Proof.
  intros Hh Hvar. unfold Terms.plotted, has_hourly.
  destruct d as [| kv d']; [discriminate |].
  cbn [truthy contains]. rewrite Hh. unfold getitem_key. rewrite Hh. cbn [rbind].
  destruct (dict_find "time" h); cbn [rbind]; [| reflexivity].
  rewrite Hvar. reflexivity.
Qed.

Ltac open_builders :=
  unfold create_temperature_comparison_chart, create_precipitation_comparison_chart,
    create_wind_comparison_chart, create_multi_variable_dashboard, build, pbind;
  cbv beta.

(** Evaluate the next block: its outcome is known from the context, given
    by [known], or found by cases. *)
Ltac block known :=
  rewrite plot_model_plotted;
  first
    [ match goal with
      | H : Terms.plotted _ ?d ?v = _ |- context [Terms.plotted _ ?d ?v] => rewrite H
      end
    | match goal with
      | |- context [Terms.plotted ?ok VNone ?v] =>
          change (Terms.plotted ok VNone v) with (@Return (option (value * value)) None)
      end
    | known
    | match goal with
      | |- context [Terms.plotted ?ok ?d ?v] =>
          destruct (Terms.plotted ok d v) as [[[? ?] |] | ?] eqn:?
      end ];
  cbv beta iota.

(** X14.  A response without an [hourly] key (an error body, for instance)
    is treated by every builder exactly like an absent response. *)
Theorem response_without_hourly_is_absent (d : list (string * value)) :
  dict_find "hourly" d = None ->
  Forall (fun bv => forall other,
              fst bv (VDict d) other = fst bv VNone other
              /\ fst bv other (VDict d) = fst bv other VNone)
         (chart_builders data_array_ok).
Proof.
  intros Hnone. unfold chart_builders.
  repeat (apply Forall_cons; [cbn [fst]; intros other; split |]);
    [.. | apply Forall_nil];
    open_builders;
    repeat block ltac:(rewrite (plotted_without_hourly d _ Hnone));
    reflexivity.
Qed.

(** X15.  A present response whose [hourly] object lacks the plotted
    variable makes the builder raise [KeyError], whatever the other response
    is (for the first, GFS, argument), and likewise for the ECMWF argument
    when the GFS one is absent. *)
Theorem missing_variable_raises (d h : list (string * value)) (var : string)
    (builder : value -> value -> result figure) :
  In (builder, [var])
     [(create_temperature_comparison_chart data_array_ok, ["temperature_2m"]);
      (create_precipitation_comparison_chart data_array_ok, ["precipitation"]);
      (create_wind_comparison_chart data_array_ok, ["wind_speed_10m"])] ->
  dict_find "hourly" d = Some (VDict h) ->
  dict_find var h = None ->
  (forall other, builder (VDict d) other = Raise KeyError)
  /\ builder VNone (VDict d) = Raise KeyError.
Proof.
  intros Hin Hh Hvar. simpl in Hin.
  pose proof (plotted_missing_variable d h var Hh Hvar) as Hmissing.
  destruct Hin as [[= <- <-] | [[= <- <-] | [[= <- <-] | []]]];
    (split; [intros other |]); open_builders; repeat block fail; reflexivity.
Qed.

(** X16.  If [create_multi_variable_dashboard] returns, so do the three
    comparison charts on the same responses (the dashboard tab builds all
    four), and each chart plots exactly the series of the dashboard panel
    for its variable, in the same order. *)
Theorem dashboard_implies_charts (gfs ecmwf : value) (fig : figure) :
  create_multi_variable_dashboard data_array_ok gfs ecmwf = Return fig ->
  exists ft fp fw,
    create_temperature_comparison_chart data_array_ok gfs ecmwf = Return ft
    /\ create_precipitation_comparison_chart data_array_ok gfs ecmwf = Return fp
    /\ create_wind_comparison_chart data_array_ok gfs ecmwf = Return fw
    /\ map series_of ft = map series_of (filter (in_cell 1 1) fig)
    /\ map series_of fp = map series_of (filter (in_cell 1 2) fig)
    /\ map series_of fw = map series_of (filter (in_cell 2 1) fig).
Proof.
  unfold create_multi_variable_dashboard, build, pbind. cbv beta.
  repeat (block fail; try (intros Habs; discriminate Habs));
    intros [= <-]; do 3 eexists;
    (split; [open_builders; repeat block fail; reflexivity |]);
    (split; [open_builders; repeat block fail; reflexivity |]);
    (split; [open_builders; repeat block fail; reflexivity |]);
    repeat split.
Qed.

Hypothesis lists_are_array_data : forall l, data_array_ok (VList l) = true.

Lemma plotted_complete (data : value) (vars : list string) (var : string) :
  complete data vars -> In var vars ->
  exists xs ys,
    plotted data var = Return (Some (xs, ys))
    /\ provides data "time" xs /\ provides data var ys.
Proof.
  intros [d [h [-> [Hh [[xs Hx] Hvars]]]]] Hin.
  destruct (Hvars var Hin) as [ys Hy].
  exists (VList xs), (VList ys). split; [| split].
  - unfold Terms.plotted, has_hourly.
    destruct d as [| kv d']; [discriminate |].
    cbn [truthy contains]. rewrite Hh. unfold getitem_key. rewrite Hh. cbn [rbind].
    rewrite Hx. cbn [rbind]. rewrite Hy. cbn [rbind].
    rewrite !lists_are_array_data. reflexivity.
  - split; [discriminate |]. exists (VDict h). simpl. rewrite Hh, Hx. auto.
  - split; [discriminate |]. exists (VDict h). simpl. rewrite Hh, Hy. auto.
Qed.

(** X13.  With both responses complete, each comparison chart holds exactly
    two traces, GFS first and ECMWF second, each plotting its own model's
    series; the dashboard holds eight, alternating GFS and ECMWF, two per
    panel in the order temperature, precipitation, wind, humidity. *)
Theorem both_models_plotted (gfs ecmwf : value) :
  complete gfs ["temperature_2m"; "precipitation"; "wind_speed_10m"; "relative_humidity_2m"] ->
  complete ecmwf ["temperature_2m"; "precipitation"; "wind_speed_10m"; "relative_humidity_2m"] ->
  Forall (fun bv =>
            exists tg te,
              fst bv gfs ecmwf = Return [tg; te]
              /\ name tg = "GFS" /\ name te = "ECMWF"
              /\ provides gfs (snd bv) (y tg) /\ provides ecmwf (snd bv) (y te))
         [(create_temperature_comparison_chart data_array_ok, "temperature_2m");
          (create_precipitation_comparison_chart data_array_ok, "precipitation");
          (create_wind_comparison_chart data_array_ok, "wind_speed_10m")]
  /\ exists fig,
       create_multi_variable_dashboard data_array_ok gfs ecmwf = Return fig
       /\ map name fig
          = ["GFS"; "ECMWF"; "GFS Precip"; "ECMWF Precip";
             "GFS Wind"; "ECMWF Wind"; "GFS Humidity"; "ECMWF Humidity"]
       /\ map cell fig
          = [Some (1, 1); Some (1, 1); Some (1, 2); Some (1, 2);
             Some (2, 1); Some (2, 1); Some (2, 2); Some (2, 2)]%nat
       /\ map color fig
          = [GFS_COLOR; ECMWF_COLOR; GFS_COLOR; ECMWF_COLOR;
             GFS_COLOR; ECMWF_COLOR; GFS_COLOR; ECMWF_COLOR].
Proof.
  intros Hg He.
  assert (forall var, In var ["temperature_2m"; "precipitation"; "wind_speed_10m";
                              "relative_humidity_2m"] ->
            (exists xs ys, plotted gfs var = Return (Some (xs, ys))
                           /\ provides gfs "time" xs /\ provides gfs var ys)
            /\ (exists xs ys, plotted ecmwf var = Return (Some (xs, ys))
                              /\ provides ecmwf "time" xs /\ provides ecmwf var ys))
    as Hall by (intros var Hin; split; eapply plotted_complete; eassumption).
  destruct (Hall "temperature_2m" ltac:(simpl; auto 10))
    as [[gx1 [gy1 [G1 [_ PG1]]]] [ex1 [ey1 [E1 [_ PE1]]]]].
  destruct (Hall "precipitation" ltac:(simpl; auto 10))
    as [[gx2 [gy2 [G2 [_ PG2]]]] [ex2 [ey2 [E2 [_ PE2]]]]].
  destruct (Hall "wind_speed_10m" ltac:(simpl; auto 10))
    as [[gx3 [gy3 [G3 [_ PG3]]]] [ex3 [ey3 [E3 [_ PE3]]]]].
  destruct (Hall "relative_humidity_2m" ltac:(simpl; auto 10))
    as [[gx4 [gy4 [G4 [_ PG4]]]] [ex4 [ey4 [E4 [_ PE4]]]]].
  split.
  - repeat (apply Forall_cons; [cbn [fst snd] |]); [.. | apply Forall_nil];
      do 2 eexists; (split; [open_builders; repeat block fail; reflexivity |]);
      cbn [name y]; auto.
  - eexists. split; [open_builders; repeat block fail; reflexivity |]. repeat split.
Qed.

(** X12.  The model tab end to end: when the GFS request fails and the
    ECMWF request returns a complete response, the fetched mapping's [gfs]
    entry is [None], its [ecmwf] entry is the response, and the temperature
    chart built from the two entries is the single ECMWF trace. *)
Theorem comparison_survives_gfs_outage (net : Http.transport) (lat lon : pyfloat)
    (vars : option (list string)) (log : list Http.request) (ecmwf : value) :
  let gfs_rq := OpenMeteo.forecast_request lat lon "gfs_seamless" vars in
  let ecmwf_rq := OpenMeteo.forecast_request lat lon "ecmwf_ifs" vars in
  net log gfs_rq = Http.GetRaised \/ net log gfs_rq = Http.StatusRaised
  \/ net log gfs_rq = Http.JsonRaised ->
  net (log ++ [gfs_rq])%list ecmwf_rq = Http.Json ecmwf ->
  complete ecmwf ["temperature_2m"] ->
  exists model_data t,
    OpenMeteo.fetch_multi_model_comparison net lat lon vars log
    = (Return model_data, ((log ++ [gfs_rq]) ++ [ecmwf_rq])%list)
    /\ Dashboard.model_entries model_data = Return (VNone, ecmwf)
    /\ create_temperature_comparison_chart data_array_ok VNone ecmwf = Return [t]
    /\ name t = "ECMWF"
    /\ provides ecmwf "temperature_2m" (y t).
Proof.
  intros gfs_rq ecmwf_rq Hfail Hok Hc.
  destruct (plotted_complete ecmwf _ "temperature_2m" Hc (or_introl eq_refl))
    as [xs [ys [Hp [_ Hprov]]]].
  exists (VDict [("gfs", VNone); ("ecmwf", ecmwf)]). eexists. split; [| split; [| split]].
  - unfold OpenMeteo.fetch_multi_model_comparison, pbind, pret.
    rewrite !OpenMeteoFacts.fetch_model_forecast_run. fold gfs_rq ecmwf_rq.
    rewrite (NwsFacts.unreachable_is_absent _ Hfail), Hok. reflexivity.
  - reflexivity.
  - open_builders. repeat block fail. reflexivity.
  - split; [reflexivity | exact Hprov].
Qed.

End Facts.

Import Samples MoreSamples.

Lemma response_without_hourly_is_absent_witness :
  create_temperature_comparison_chart array_like error_body hourly_payload
  = create_temperature_comparison_chart array_like VNone hourly_payload.
Proof.
  pose proof (response_without_hourly_is_absent array_like
                [("error", VBool true); ("reason", VStr "Cannot initialize WeatherVariable")]
                eq_refl) as H.
  inversion H as [| ? ? Hfirst _]. exact (proj1 (Hfirst hourly_payload)).
Defined.

Lemma missing_variable_raises_witness :
  create_temperature_comparison_chart array_like hourly_without_temperature hourly_payload
  = Raise KeyError.
Proof.
  apply (proj1 (missing_variable_raises array_like
                  [("hourly", VDict [("time", VList [VStr "2024-01-01T00:00"]);
                                     ("precipitation", VList [VInt 0])])]
                  [("time", VList [VStr "2024-01-01T00:00"]);
                   ("precipitation", VList [VInt 0])]
                  "temperature_2m"
                  (create_temperature_comparison_chart array_like)
                  (or_introl eq_refl) eq_refl eq_refl)).
Defined.

Lemma dashboard_implies_charts_witness :
  exists ft,
    create_temperature_comparison_chart array_like hourly_payload VNone = Return ft
    /\ map series_of ft
       = [(VList [VStr "2024-01-01T00:00"; VStr "2024-01-01T01:00"], VList [VInt 3; VInt 4])].
Proof.
  destruct (dashboard_implies_charts array_like hourly_payload VNone _ eq_refl)
    as [ft [fp [fw [Ht [_ [_ [Hs _]]]]]]].
  exists ft. split; [exact Ht |]. rewrite Hs. reflexivity.
Defined.

Lemma hourly_payload_complete :
  complete hourly_payload
    ["temperature_2m"; "precipitation"; "wind_speed_10m"; "relative_humidity_2m"].
Proof.
  do 2 eexists. split; [reflexivity |]. split; [reflexivity |].
  split; [eexists; reflexivity |].
  intros var [<- | [<- | [<- | [<- | []]]]]; eexists; reflexivity.
Defined.

Lemma both_models_plotted_witness :
  exists fig,
    create_multi_variable_dashboard array_like hourly_payload hourly_payload = Return fig
    /\ length fig = 8%nat.
Proof.
  destruct (proj2 (both_models_plotted array_like (fun l => eq_refl)
                     hourly_payload hourly_payload
                     hourly_payload_complete hourly_payload_complete))
    as [fig [Hrun [Hnames _]]].
  exists fig. split; [exact Hrun |].
  rewrite <- (length_map name), Hnames. reflexivity.
Defined.

Lemma comparison_survives_gfs_outage_witness :
  exists model_data t,
    OpenMeteo.fetch_multi_model_comparison
      (by_model Http.GetRaised (Http.Json hourly_payload))
      (fst new_york) (snd new_york) None []
    = (Return model_data,
       [OpenMeteo.forecast_request (fst new_york) (snd new_york) "gfs_seamless" None;
        OpenMeteo.forecast_request (fst new_york) (snd new_york) "ecmwf_ifs" None])
    /\ Dashboard.model_entries model_data = Return (VNone, hourly_payload)
    /\ create_temperature_comparison_chart array_like VNone hourly_payload = Return [t].
Proof.
  assert (complete hourly_payload ["temperature_2m"]) as Hc.
  { do 2 eexists. split; [reflexivity |]. split; [reflexivity |].
    split; [eexists; reflexivity |]. intros var [<- | []]. eexists. reflexivity. }
  destruct (comparison_survives_gfs_outage array_like (fun l => eq_refl)
              (by_model Http.GetRaised (Http.Json hourly_payload))
              (fst new_york) (snd new_york) None [] hourly_payload
              (or_introl eq_refl) eq_refl Hc)
    as [model_data [t [Hrun [Hentries [Hchart _]]]]].
  exists model_data, t. repeat split; assumption.
Defined.

End ChartsMore.

(** ** Map builders: malformed alerts, the state tables, the other maps *)

Module MapsMoreFacts.
Import Maps MapsMore Terms.

Lemma table_find_in {A} (k : string) (t : list (string * A)) :
  In k (map fst t) -> exists a, table_find k t = Some a.
Proof.
  induction t as [| [k' a] t IH]; simpl; [intros [] |].
  intros Hin. destruct (String.eqb_spec k k') as [-> | Hne].
  - eexists. reflexivity.
  - destruct Hin as [Heq | Hin]; [congruence | apply IH; exact Hin].
Qed.

Section Facts.

Variable str_other : value -> string.
Variable fixed4 : pyfloat -> string.
Variable known_tiles : string -> bool.

Local Notation add_alert := (add_alert str_other).
Local Notation create_alerts_map := (create_alerts_map str_other).
Local Notation create_forecast_map := (create_forecast_map str_other fixed4).
Local Notation create_location_picker_map := (create_location_picker_map fixed4 known_tiles).
Local Notation create_radar_map := (create_radar_map fixed4).

(** A malformed alert stops the loop with an exception and adds nothing. *)
Lemma add_alert_bad (center : pyfloat * pyfloat) (alert : value) (m : list element) :
  alert_ok alert = false ->
  exists e, add_alert center alert m = (Raise e, m)
            /\ (e = AttributeError \/ e = TypeError).
Proof.
  unfold alert_ok, Maps.add_alert, pbind, lift.
  destruct alert as [| | | | | |a];
    try (intros _; exists AttributeError; split; [reflexivity | now left]).
  cbn [is_dict andb get_method].
  change (match dict_find "properties" a with Some v => v | None => VDict [] end)
    with (properties_of (VDict a)).
  change (match dict_find "geometry" a with Some v => v | None => VNone end)
    with (field "geometry" (VDict a)).
  unfold severity_of.
  destruct (properties_of (VDict a)) as [| | | | | |p];
    try (intros _; exists AttributeError; split; [reflexivity | now left]).
  cbn [is_dict andb get_method].
  set (severity := match dict_find "severity" p with
                   | Some v => v | None => VStr "Unknown" end).
  destruct (severity_color severity) as [c | e] eqn:Hcolor.
  - assert (match severity with VList _ | VDict _ => false | _ => true end = true) as ->
      by (destruct severity; simpl in Hcolor; try discriminate; reflexivity).
    cbn [andb]. unfold is_polygonal.
    destruct (truthy (field "geometry" (VDict a))); cbn [negb orb]; [| discriminate].
    destruct (field "geometry" (VDict a)); try discriminate;
      intros _; exists AttributeError; (split; [reflexivity | now left]).
  - intros _. exists e. split; [reflexivity |].
    destruct severity; simpl in Hcolor; try discriminate; injection Hcolor as <-; now right.
Qed.

Lemma add_alerts_bad (center : pyfloat * pyfloat) (l : list value) (m : list element) :
  forallb alert_ok l = false ->
  exists e m', for_each (add_alert center) l m = (Raise e, m')
               /\ (e = AttributeError \/ e = TypeError).
Proof.
  revert m. induction l as [| alert l IH]; intros m; simpl; [discriminate |].
  destruct (alert_ok alert) eqn:Hok; cbn [andb]; intros Hbad.
  - destruct (MapsFacts.add_alert_ok str_other center alert m Hok) as [el [Hrun _]].
    destruct (IH (m ++ [el])%list Hbad) as [e [m' [Hrest He]]].
    exists e, m'. unfold pbind at 1. rewrite Hrun, Hrest. split; [reflexivity | exact He].
  - destruct (add_alert_bad center alert m Hok) as [e [Hrun He]].
    exists e, m. unfold pbind at 1. rewrite Hrun. split; [reflexivity | exact He].
Qed.

(** X17.  On a list of alerts [create_alerts_map] returns a map exactly
    when every alert is well formed; a single malformed alert makes the
    whole call raise ([AttributeError] or [TypeError]) and no partial map
    is returned. *)
Theorem create_alerts_map_returns_iff (l : list value) (state : string) :
  ((exists m, create_alerts_map (VList l) state = Return m)
   <-> forallb alert_ok l = true)
  /\ (forallb alert_ok l = false ->
      create_alerts_map (VList l) state = Raise AttributeError
      \/ create_alerts_map (VList l) state = Raise TypeError).
Proof.
  assert (forallb alert_ok l = false ->
          create_alerts_map (VList l) state = Raise AttributeError
          \/ create_alerts_map (VList l) state = Raise TypeError) as Hbad.
  { intros Hnot.
    assert (exists e, create_alerts_map (VList l) state = Raise e
                      /\ (e = AttributeError \/ e = TypeError))
      as [e [Hraise [-> | ->]]]; [| auto | auto].
    unfold Maps.create_alerts_map.
    unfold pbind at 1. unfold lift at 1. simpl iterate. cbv beta iota zeta.
    match goal with |- context [for_each (add_alert ?c) l []] =>
      destruct (add_alerts_bad c l [] Hnot) as [e [m' [Hrun He]]]
    end.
    rewrite Hrun. exists e. split; [reflexivity | exact He]. }
  split; [split | exact Hbad].
  - intros [m Hrun]. destruct (forallb alert_ok l) eqn:Hall; [reflexivity |].
    destruct (Hbad eq_refl) as [Habs | Habs]; congruence.
  - intros Hall. unfold Maps.create_alerts_map.
    unfold pbind at 1. unfold lift at 1. simpl iterate. cbv beta iota zeta.
    match goal with |- context [for_each (add_alert ?c) l []] =>
      destruct (MapsFacts.add_alerts_ok str_other c l [] Hall) as [es [Hrun _]]
    end.
    rewrite Hrun. eexists. reflexivity.
Qed.

(** X18.  The dashboard's state list and the table of state centres have
    the same codes in the same order, so for every state the select box
    offers, the alert map is centred on that state's own entry and the
    default centre is never used. *)
Theorem every_state_has_a_center :
  map fst Dashboard.US_STATES = map fst STATE_CENTERS
  /\ forall code,
       In code (map fst Dashboard.US_STATES) ->
       exists c,
         table_find code STATE_CENTERS = Some c
         /\ forall alerts m,
              create_alerts_map alerts code = Return m -> location m = c.
Proof.
  assert (map fst Dashboard.US_STATES = map fst STATE_CENTERS) as Hkeys by reflexivity.
  split; [exact Hkeys |].
  intros code Hin. rewrite Hkeys in Hin.
  destruct (table_find_in code STATE_CENTERS Hin) as [c Hc].
  exists c. split; [exact Hc |].
  intros alerts m. unfold Maps.create_alerts_map. rewrite Hc.
  destruct (pbind _ _ []) as [[[] | e] els]; [| discriminate].
  intros [= <-]. reflexivity.
Qed.

(** X22.  The alerts tab end to end: when the NWS body is an object whose
    [features] is a list of well-formed alerts, [fetch_alerts] returns that
    list after one request and [create_alerts_map] on it returns a map with
    one element per feature. *)
Theorem alerts_tab_map (net : Http.transport) (state : string)
    (log : list Http.request) (d : list (string * value)) (l : list value) :
  let rq := Nws.nws_request (VStr (Nws.NWS_API_BASE ++ "/alerts/active/area/" ++ state)) in
  Http.payload (net log rq) = VDict d ->
  dict_find "features" d = Some (VList l) ->
  forallb alert_ok l = true ->
  exists m,
    Nws.fetch_alerts net state log = (Return (VList l), (log ++ [rq])%list)
    /\ create_alerts_map (VList l) state = Return m
    /\ length (children m) = length l.
Proof.
  intros rq Hbody Hfeatures Hall.
  assert (Nws.fetch_alerts net state log = (Return (VList l), (log ++ [rq])%list)) as Hfetch.
  { unfold Nws.fetch_alerts, pbind. rewrite NwsFacts.make_nws_request_run.
    fold (Nws.alerts_url state). unfold Nws.alerts_url. fold rq. rewrite Hbody.
    destruct d as [| kv d']; [discriminate |].
    unfold lift, Nws.lacks_features. cbn [truthy negb contains rbind].
    rewrite Hfeatures. cbn [negb]. unfold getitem_key. rewrite Hfeatures. reflexivity. }
  unfold Maps.create_alerts_map. unfold pbind at 1. unfold lift at 1. simpl iterate.
  cbv beta iota zeta.
  match goal with |- context [for_each (add_alert ?c) l []] =>
    destruct (MapsFacts.add_alerts_ok str_other c l [] Hall) as [es [Hrun Hes]]
  end.
  rewrite Hrun. eexists. split; [exact Hfetch |]. split; [reflexivity |].
  simpl. symmetry. eapply Forall2_length. exact Hes.
Qed.

(** X20.  [create_forecast_map] draws exactly one blue marker at the given
    point.  Without forecast data ([None] or an empty list) the popup is
    the location line alone; with a list of periods only the first period
    is read, so the rest of the list does not change the map. *)
Theorem create_forecast_map_marker (lat lon : pyfloat) :
  (forall forecast_data m,
      create_forecast_map lat lon forecast_data = Return m ->
      center m = (lat, lon)
      /\ exists popup, layers m = [Child (Marker (lat, lon) popup "blue" "cloud" "fa")])
  /\ create_forecast_map lat lon VNone = create_forecast_map lat lon (VList [])
  /\ create_forecast_map lat lon VNone
     = Return {| center := (lat, lon); zoom := 10; base_tiles := "CartoDB positron";
                 layers := [Child (Marker (lat, lon)
                                     ("<b>Forecast Location</b><br>Lat: " ++ fixed4 lat
                                      ++ "<br>Lon: " ++ fixed4 lon)
                                     "blue" "cloud" "fa")] |}
  /\ (forall first_period rest,
        create_forecast_map lat lon (VList (first_period :: rest))
        = create_forecast_map lat lon (VList [first_period])).
Proof.
  split; [| split; [reflexivity | split; [reflexivity |]]].
  - intros forecast_data m. unfold MapsMore.create_forecast_map.
    destruct (has_periods forecast_data) as [shown | e]; cbn [rbind]; [| discriminate].
    match goal with |- context [rbind ?c _] => destruct c as [popup | e] end;
      cbn [rbind]; [| discriminate].
    intros [= <-]. split; [reflexivity |]. eexists. reflexivity.
  - intros first_period rest. reflexivity.
Qed.

(** X19.  With a built-in tile name the location picker returns a map
    that shows a marker exactly when both selected coordinates are given,
    and the radar map without a tile URL has the picker's layers followed
    by the layer control: both builders draw the same selection marker.
    With any other tile name the picker raises [ValueError]. *)
Theorem selection_marker_shared (clat clon : pyfloat) (z : Z)
    (sl so : option pyfloat) (tiles : string) :
  (known_tiles tiles = false ->
   create_location_picker_map clat clon z sl so tiles = Raise ValueError)
  /\ (known_tiles tiles = true ->
      exists m,
        create_location_picker_map clat clon z sl so tiles = Return m
        /\ base_tiles m = tiles
        /\ (layers m = [] <-> sl = None \/ so = None)
        /\ (forall lat lon, sl = Some lat -> so = Some lon ->
              layers m
              = [Child (Marker (lat, lon) ("Selected: " ++ fixed4 lat ++ ", " ++ fixed4 lon)
                               "red" "crosshairs" "fa")])
        /\ (forall u, nonempty_url u = false ->
              layers (create_radar_map clat clon z u sl so)
              = (layers m ++ [LayerControl])%list)).
Proof.
  unfold MapsMore.create_location_picker_map. split; intros ->; [reflexivity |].
  eexists. split; [reflexivity |]. split; [reflexivity |]. split; [| split].
  - destruct sl, so; simpl; split; try (intros [H | H]; discriminate H); auto; discriminate.
  - intros lat lon -> ->. reflexivity.
  - intros u Hu. unfold MapsMore.create_radar_map. rewrite Hu.
    destruct sl, so; reflexivity.
Qed.

(** X21.  The radar tab end to end: for every frame the slider can select
    from a list returned by [get_all_radar_frames], the frame's [url] is a
    non-empty string, so [create_radar_map] given that URL puts the radar
    tile layer for it first and the layer control last. *)
Theorem radar_map_from_frames (rd : value) (frames : list value) (frame_idx : Z) :
  Rainviewer.get_all_radar_frames str_other rd = Return frames ->
  0 <= frame_idx <= Z.of_nat (length frames) - 1 ->
  exists time u,
    Dashboard.selected_frame frames frame_idx = Return (time, VStr u)
    /\ forall clat clon z sl so,
         exists between,
           layers (create_radar_map clat clon z (Some u) sl so)
           = (TileLayer u "RainViewer" "Radar" true true (Dec 7 (-1))
              :: between ++ [LayerControl])%list
           /\ Forall (fun l => is_marker l = true) between.
Proof.
  intros Hrun Hidx.
  destruct (RainviewerMore.returned_frame_at str_other rd frames frame_idx Hrun Hidx)
    as [time [pre Hat]].
  exists time, (pre ++ tile_suffix)%string. split.
  - unfold Dashboard.selected_frame. rewrite Hat. reflexivity.
  - intros clat clon z sl so. unfold MapsMore.create_radar_map.
    assert (nonempty_url (Some (pre ++ tile_suffix)%string) = true) as ->
      by (apply (RainviewerMore.suffixed_is_truthy pre)).
    destruct sl as [lat |], so as [lon |].
    + eexists [_]. split; [reflexivity |]. repeat constructor.
    + exists []. split; [reflexivity | constructor].
    + exists []. split; [reflexivity | constructor].
    + exists []. split; [reflexivity | constructor].
Qed.

End Facts.

Import Samples MoreSamples.

Lemma create_alerts_map_returns_iff_witness :
  create_alerts_map sample_text (VList [alert "Minor" polygon; VStr "not an alert"]) "CA"
  = Raise AttributeError
  \/ create_alerts_map sample_text (VList [alert "Minor" polygon; VStr "not an alert"]) "CA"
     = Raise TypeError.
Proof.
  apply (proj2 (create_alerts_map_returns_iff sample_text
                  [alert "Minor" polygon; VStr "not an alert"] "CA")).
  reflexivity.
Defined.

Lemma every_state_has_a_center_witness :
  exists c, table_find "CA" STATE_CENTERS = Some c
            /\ c = (deg6 36116203, deg6 (-119681564)).
Proof.
  destruct (proj2 (every_state_has_a_center sample_text) "CA") as [c [Hc _]].
  - simpl. auto 10.
  - exists c. split; [exact Hc |]. simpl in Hc. congruence.
Defined.

Lemma alerts_tab_map_witness :
  exists m,
    Nws.fetch_alerts (scripted [Http.Json alerts_payload]) "CA" []
    = (Return (VList [alert "Extreme" polygon; alert "Minor" VNone]),
       [Nws.nws_request (VStr "https://api.weather.gov/alerts/active/area/CA")])
    /\ create_alerts_map sample_text
         (VList [alert "Extreme" polygon; alert "Minor" VNone]) "CA" = Return m
    /\ length (children m) = 2%nat.
Proof.
  apply (alerts_tab_map sample_text (scripted [Http.Json alerts_payload]) "CA" []
           [("type", VStr "FeatureCollection");
            ("features", VList [alert "Extreme" polygon; alert "Minor" VNone])]
           [alert "Extreme" polygon; alert "Minor" VNone]);
    reflexivity.
Defined.

Lemma create_forecast_map_marker_witness :
  exists m popup,
    MapsMore.create_forecast_map sample_text sample_fixed4
      (fst new_york) (snd new_york) periods = Return m
    /\ layers m = [Child (Marker new_york popup "blue" "cloud" "fa")].
Proof.
  destruct (MapsMore.create_forecast_map sample_text sample_fixed4
              (fst new_york) (snd new_york) periods) as [m | e] eqn:Hrun;
    [| discriminate Hrun].
  destruct (proj1 (create_forecast_map_marker sample_text sample_fixed4
                     (fst new_york) (snd new_york)) periods m Hrun)
    as [_ [popup Hlayers]].
  exists m, popup. split; [reflexivity | exact Hlayers].
Defined.

Lemma selection_marker_shared_witness :
  MapsMore.create_location_picker_map sample_fixed4 sample_known_tiles
    (fst new_york) (snd new_york) 5 (Some (fst new_york)) (Some (snd new_york))
    "Stamen Toner"
  = Raise ValueError
  /\ exists m,
       MapsMore.create_location_picker_map sample_fixed4 sample_known_tiles
         (fst new_york) (snd new_york) 5 (Some (fst new_york)) (Some (snd new_york))
         "CartoDB positron"
       = Return m
       /\ layers m
          = [Child (Marker new_york "Selected: 40.7128, -74.0060" "red" "crosshairs" "fa")]
       /\ layers (MapsMore.create_radar_map sample_fixed4 (fst new_york) (snd new_york) 5
                    None (Some (fst new_york)) (Some (snd new_york)))
          = (layers m ++ [LayerControl])%list.
Proof.
  split.
  - apply (proj1 (selection_marker_shared sample_fixed4 sample_known_tiles
                    (fst new_york) (snd new_york) 5
                    (Some (fst new_york)) (Some (snd new_york)) "Stamen Toner")).
    reflexivity.
  - destruct (proj2 (selection_marker_shared sample_fixed4 sample_known_tiles
                       (fst new_york) (snd new_york) 5
                       (Some (fst new_york)) (Some (snd new_york)) "CartoDB positron")
                eq_refl)
      as [m [Hrun [_ [_ [Hmarker Hradar]]]]].
    exists m. split; [exact Hrun |]. split.
    + apply (Hmarker (fst new_york) (snd new_york)); reflexivity.
    + apply (Hradar None). reflexivity.
Defined.

Lemma radar_map_from_frames_witness :
  exists time u,
    Dashboard.selected_frame
      [VDict [("time", VInt 1700000000);
              ("url", VStr "https://tiles.example/v2/radar/1700000000/256/{z}/{x}/{y}/2/1_1.png")];
       VDict [("time", VInt 1700000600);
              ("url", VStr "https://tiles.example/v2/radar/1700000600/256/{z}/{x}/{y}/2/1_1.png")]]
      0
    = Return (time, VStr u)
    /\ exists between,
         layers (MapsMore.create_radar_map sample_fixed4 (fst new_york) (snd new_york) 5
                   (Some u) None None)
         = (TileLayer u "RainViewer" "Radar" true true (Dec 7 (-1))
            :: between ++ [LayerControl])%list.
Proof.
  destruct (radar_map_from_frames sample_text sample_fixed4 radar_payload _ 0 eq_refl)
    as [time [u [Hsel Hmap]]].
  - simpl. lia.
  - exists time, u. split; [exact Hsel |].
    destruct (Hmap (fst new_york) (snd new_york) 5 None None) as [between [Hlayers _]].
    exists between. exact Hlayers.
Defined.

End MapsMoreFacts.
